(** * Verification of the code-chunking and retrieval pipeline of CODEBASE_RAG_APP

    Shallow embedding of
    - backend/api/chunking_parsing_AST.py : SimpleTreeSitterParser.parse,
      get_file_content, parse_repo_store_all
    - backend/api/embeddings.py           : generate_embedding
    - main.py, backend/main.py            : namespace derivation, perform_rag,
      query_codebase
    External collaborators (tree-sitter, the file system, the sentence
    embedding model, the Pinecone index, the language model) are Section
    variables; Python dictionaries are stdpp [gmap string pyval]. *)

From Stdlib Require Import String Ascii List Bool Arith Lia.
From stdpp Require Import base gmap strings list pretty.
Import ListNotations.
Open Scope string_scope.

(** ** Python values and strings *)

(** The values stored in the chunk dictionaries and in the metadata. *)
Inductive pyval :=
| VNone
| VStr (s : string)
| VInt (n : nat).

Global Instance pyval_eq_dec : EqDecision pyval.
Proof. solve_decision. Qed.

(** A Python [dict] with string keys. *)
Abbreviation pydict := (gmap string pyval).

(** [s.startswith(p)] *)
Fixpoint str_startswith (p s : string) : bool :=
  match p, s with
  | EmptyString, _ => true
  | String c p', String d s' => if Ascii.ascii_dec c d then str_startswith p' s' else false
  | String _ _, EmptyString => false
  end.

(** [sub in s] on strings: substring containment. *)
Fixpoint str_contains (sub s : string) : bool :=
  str_startswith sub s ||
  match s with
  | EmptyString => false
  | String _ s' => str_contains sub s'
  end.

(** [s.endswith(p)] *)
Definition str_endswith (p s : string) : bool :=
  str_startswith (string_of_list_ascii (rev (list_ascii_of_string p)))
                 (string_of_list_ascii (rev (list_ascii_of_string s))).

(** Python slicing [code[a:b]] for non-negative indices: clipped to the
    string, empty when [b <= a]. *)
Definition py_slice (a b : nat) (s : string) : string :=
  substring a (b - a) s.

(** [sep.join(xs)] *)
Fixpoint py_join (sep : string) (xs : list string) : string :=
  match xs with
  | [] => ""
  | [x] => x
  | x :: xs' => x ++ sep ++ py_join sep xs'
  end.

(** ** os.path helpers *)

(** [os.path.join(root, file)] for a relative [file] name as produced by
    [os.walk]: a separator is inserted unless [root] is empty or already
    ends with one. *)
Definition os_path_join (root file : string) : string :=
  if str_startswith "/" file then file
  else if String.eqb root "" then file
  else if str_endswith "/" root then root ++ file
  else root ++ "/" ++ file.

(** Index of the last ['.'] of a string, if any. *)
Fixpoint last_dot_aux (i : nat) (s : string) (acc : option nat) : option nat :=
  match s with
  | EmptyString => acc
  | String c s' =>
      last_dot_aux (S i) s' (if Ascii.ascii_dec c "." then Some i else acc)
  end.

(** [os.path.splitext(file)[1]] for a file name without separator: the text
    from the last dot, unless every character before that dot is a dot
    (leading dots do not start an extension), in which case [""]. *)
Definition os_path_splitext_ext (file : string) : string :=
  match last_dot_aux 0 file None with
  | None => ""
  | Some d =>
      if existsb (fun c => negb (Ascii.eqb c "."))
                 (list_ascii_of_string (substring 0 d file))
      then substring d (String.length file - d) file
      else ""
  end.

(** ** Module constants of chunking_parsing_AST.py *)

Definition SUPPORTED_EXTENSIONS : list string :=
  [".py"; ".java"; ".js"; ".ts"; ".cpp"; ".h"; ".ipynb"].

Definition IGNORED_EXTENSIONS : list string :=
  [".pkl"; ".npy"; ".h5"; ".bin"; ".exe"; ".dll"; ".so"; ".o"; ".class"; ".log"; ".txt";
   ".md"; ".csv"; ".json"; ".xml"; ".yaml"; ".yml"; ".lock"].

Definition IGNORED_DIRS : list string :=
  ["node_modules"; "venv"; "env"; "dist"; "build"; ".git"; "__pycache__"; ".next"; ".vscode"; "vendor"].

Definition str_mem (x : string) (xs : list string) : bool :=
  existsb (String.eqb x) xs.

(** The dictionary literal mapping an extension to a grammar, with [.get]. *)
Definition language_of (ext : string) : option string :=
  if String.eqb ext ".py" then Some "python"
  else if String.eqb ext ".ipynb" then Some "python"
  else if String.eqb ext ".java" then Some "java"
  else if String.eqb ext ".js" then Some "javascript"
  else if String.eqb ext ".ts" then Some "typescript"
  else if String.eqb ext ".cpp" then Some "cpp"
  else if String.eqb ext ".h" then Some "cpp"
  else None.

(** ** The structural chunker: SimpleTreeSitterParser.parse *)

(** A tree-sitter node: its kind ([type]), byte range, start and end points
    ([(row, column)], 0-based) and its children. *)
#[warnings="-register-all"]
Inductive node := Node {
  ntype : string;
  start_byte : nat;
  end_byte : nat;
  start_point : nat * nat;
  end_point : nat * nat;
  children : list node
}.

(** The log lines emitted by [parse]. *)
Inductive log_entry :=
| LogDebug (ty : string) (sp ep : nat * nat)
| LogWarning (msg : string).

(** The if/elif chain on [child.type]: the chunk type of a recognised
    top-level node kind. *)
Definition chunk_type_of (ty : string) : option string :=
  if str_mem ty ["class"; "class_declaration"; "class_definition"] then Some "class"
  else if str_mem ty ["function"; "function_definition"; "method"; "method_declaration"] then Some "method"
  else if str_mem ty ["variable_declaration"; "declaration"; "let_declaration"; "const_declaration"] then Some "variable"
  else if str_mem ty ["import_statement"; "import"] then Some "import"
  else if str_mem ty ["export_statement"; "export"] then Some "export"
  else None.

(** The dictionary appended for a recognised child. *)
Definition structural_chunk (code : string) (k : string) (child : node) : pydict :=
  list_to_map [("type", VStr k);
               ("content", VStr (py_slice (start_byte child) (end_byte child) code));
               ("start_line", VInt (fst (start_point child) + 1));
               ("end_line", VInt (fst (end_point child) + 1))].

(** One iteration of the loop over [root.children]: the chunk it appends
    (if any) and the log lines it writes. *)
Definition parse_child (code : string) (child : node) : list pydict * list log_entry :=
  let dbg := LogDebug (ntype child) (start_point child) (end_point child) in
  match chunk_type_of (ntype child) with
  | Some k => ([structural_chunk code k child], [dbg])
  | None => ([], [dbg; LogWarning ("Unrecognized node type: " ++ ntype child)])
  end.

Fixpoint parse_children (code : string) (cs : list node) : list pydict * list log_entry :=
  match cs with
  | [] => ([], [])
  | c :: cs' =>
      let '(ch1, l1) := parse_child code c in
      let '(ch2, l2) := parse_children code cs' in
      (app ch1 ch2, app l1 l2)
  end.

(** [parse(code)] once [self.parser.parse] has returned the tree [root]. *)
Definition parse (code : string) (root : node) : list pydict * list log_entry :=
  parse_children code (children root).

(** ** Scanning a repository: parse_repo_store_all *)

Section Ingestion.

(** [get_file_content(path)]: [None] when opening or decoding fails. *)
Variable get_file_content : string -> option string.

(** [SimpleTreeSitterParser(language)] followed by [self.parser.parse]:
    the root node, or [None] when [get_parser] or the parser raises (both
    surface as [ValueError]; any other exception takes the same fallback). *)
Variable tree_sitter_parse : option string -> string -> option node.

(** The whole-file entry appended after the structural chunks. *)
Definition file_chunk (code file_path : string) : pydict :=
  list_to_map [("type", VStr "file"); ("content", VStr code); ("file_path", VStr file_path)].

(** The body of [for file in files]. *)
Definition process_file (root file : string) : list pydict :=
  let file_path := os_path_join root file in
  let extension := os_path_splitext_ext file in
  if str_mem extension IGNORED_EXTENSIONS then []
  else if str_mem extension SUPPORTED_EXTENSIONS then
    let language := language_of extension in
    match get_file_content file_path with
    | None => []
    | Some code =>
        if String.eqb code "" then []
        else match tree_sitter_parse language code with
             | Some tree => app (fst (parse code tree)) [file_chunk code file_path]
             | None => [file_chunk code file_path]
             end
    end
  else [].

(** [any(ignored_dir in root for ignored_dir in IGNORED_DIRS)] *)
Definition root_ignored (root : string) : bool :=
  existsb (fun d => str_contains d root) IGNORED_DIRS.

(** The body of [for root, _, files in os.walk(repo_path)]. *)
Definition process_root (entry : string * list string) : list pydict :=
  let '(root, files) := entry in
  if root_ignored root then []
  else flat_map (process_file root) files.

(** [parse_repo_store_all], given the sequence of [(root, files)] pairs that
    [os.walk(repo_path)] yields: [inl msg] is the raised [ValueError]. *)
Definition parse_repo_store_all (walk : list (string * list string)) : string + list pydict :=
  let all_chunks := flat_map process_root walk in
  match all_chunks with
  | [] => inl "No valid code chunks found in the repository."
  | _ => inr all_chunks
  end.

End Ingestion.

(** ** Namespace derivation: main.py submit_repo and clone_repository *)

(** [s.split(c)] for a one-character separator. *)
Fixpoint py_split (c : ascii) (s : string) : list string :=
  match s with
  | EmptyString => [""]
  | String x s' =>
      let rest := py_split c s' in
      if Ascii.ascii_dec x c then "" :: rest
      else match rest with
           | h :: t => String x h :: t
           | [] => [String x ""]
           end
  end.

(** [s.replace(old, new)] for a non-empty [old]: every non-overlapping
    occurrence, scanning left to right. [fuel] bounds the scan. *)
Fixpoint py_replace_aux (fuel : nat) (old new s : string) : string :=
  match fuel with
  | O => s
  | S fuel' =>
      match s with
      | EmptyString => EmptyString
      | String c s' =>
          if str_startswith old s
          then new ++ py_replace_aux fuel'
                        old new (substring (String.length old) (String.length s - String.length old) s)
          else String c (py_replace_aux fuel' old new s')
      end
  end.

(** [s.replace(old, new)]; an empty [old] inserts [new] around every character. *)
Definition py_str_replace (old new s : string) : string :=
  if String.eqb old "" then
    new ++ String.concat "" (map (fun c => String c new) (list_ascii_of_string s))
  else py_replace_aux (S (String.length s)) old new s.

(** [request.repo_url.split("/")[-1].replace(".git", "")]: the namespace of
    [submit_repo] and the directory name of [clone_repository]/[clone_repo]. *)
Definition repo_namespace (repo_url : string) : string :=
  py_str_replace ".git" "" (List.last (py_split "/" repo_url) "").

(** ** The embedding generator: embeddings.py generate_embedding *)

(** The Python exception raised by [chunk[key]] on a missing key. *)
Inductive py_error :=
| KeyError (key : string)
(** What [model.encode] raises on a value that is not a string: the
    tokenizer of the model accepts only text. *)
| EncodeError.

(** [d[key]] *)
Definition dict_getitem (d : pydict) (key : string) : py_error + pyval :=
  match d !! key with
  | Some v => inr v
  | None => inl (KeyError key)
  end.

(** [d.get(key)] *)
Definition dict_get (d : pydict) (key : string) : pyval :=
  default VNone (d !! key).

Section Embeddings.

Variable vec : Type.

(** [model.encode(text)] of the sentence-transformers model, for a string. *)
Variable encode : string -> vec.

Record embedding_record := {
  embedding : vec;
  metadata : pydict
}.

(** One iteration of the loop: [chunk["content"]] is encoded first, then the
    dictionary literal is built in key order. *)
Definition embed_chunk (chunk : pydict) : py_error + embedding_record :=
  match dict_getitem chunk "content" with
  | inl e => inl e
  | inr (VNone | VInt _) => inl EncodeError
  | inr (VStr content) =>
      let e := encode content in
      match dict_getitem chunk "type" with
      | inl err => inl err
      | inr ty =>
          let name := dict_get chunk "name" in
          match dict_getitem chunk "path" with
          | inl err => inl err
          | inr path =>
              inr {| embedding := e;
                     metadata := list_to_map [("type", ty); ("name", name); ("path", path);
                                              ("start_line", dict_get chunk "start_line");
                                              ("end_line", dict_get chunk "end_line")] |}
          end
      end
  end.

(** [generate_embedding(chunks)]: the first exception aborts the call. *)
Fixpoint generate_embedding (chunks : list pydict) : py_error + list embedding_record :=
  match chunks with
  | [] => inr []
  | c :: cs =>
      match embed_chunk c with
      | inl e => inl e
      | inr r =>
          match generate_embedding cs with
          | inl e => inl e
          | inr rs => inr (r :: rs)
          end
      end
  end.

End Embeddings.

(** ** The retrieval-augmented answerer: perform_rag and query_codebase *)

Definition nl : string := String (ascii_of_nat 10) "".

(** A Pinecone match: its score and its metadata. *)
Record pc_match := {
  score : nat;
  match_metadata : gmap string string
}.

Definition NO_CONTEXT_ANSWER : string := "No relevant context found for the query.".

(** [match['metadata'].get('text', '')] *)
Definition match_text (m : pc_match) : string :=
  default "" (match_metadata m !! "text").

(** ["\n\n-------\n\n".join(contexts)] *)
Definition context_separator : string := nl ++ nl ++ "-------" ++ nl ++ nl.

Section Rag.

Variable vec : Type.

(** [embedding_model.embed_query(text)] (followed by [tolist()]). *)
Variable embed_query : string -> vec.
(** [pinecone_index.query(vector=v, top_k=k, include_metadata=True, namespace=ns)['matches']] *)
Variable index_query : vec -> nat -> string -> list pc_match.
(** [client.chat.completions.create(model=..., messages=msgs).choices[0].message.content] *)
Variable llm_complete : list (string * string) -> string.

(** The external calls a request makes, in order. *)
Inductive event :=
| EvEmbed (text : string)
| EvIndexQuery (vector : vec) (top_k : nat) (namespace : string)
| EvLLM (messages : list (string * string)).

(** A writer monad over the trace of external calls. *)
Definition rag (A : Type) : Type := list event -> A * list event.

Definition rag_ret {A} (x : A) : rag A := fun tr => (x, tr).

Definition rag_bind {A B} (m : rag A) (k : A -> rag B) : rag B :=
  fun tr => let '(x, tr') := m tr in k x tr'.

Local Notation "'let!' x := m 'in' k" := (rag_bind m (fun x => k))
  (at level 200, x name, m at level 100, k at level 200).

Definition call_embed (text : string) : rag vec :=
  fun tr => (embed_query text, app tr [EvEmbed text]).

Definition call_index (v : vec) (top_k : nat) (namespace : string) : rag (list pc_match) :=
  fun tr => (index_query v top_k namespace, app tr [EvIndexQuery v top_k namespace]).

Definition call_llm (messages : list (string * string)) : rag string :=
  fun tr => (llm_complete messages, app tr [EvLLM messages]).

(** main.py [perform_rag]. *)
Definition perform_rag (query namespace : string) : rag string :=
  let! vector := call_embed query in
  let! matches := call_index vector 10 namespace in
  match matches with
  | [] => rag_ret NO_CONTEXT_ANSWER
  | _ =>
      let contexts := map match_text matches in
      let augmented_query :=
        "<CONTEXT>" ++ nl ++ py_join context_separator contexts ++ nl ++ "-------" ++ nl ++
        "</CONTEXT>" ++ nl ++ nl ++ query in
      call_llm [("system", "Answer as concisely as possible."); ("user", augmented_query)]
  end.

Definition BACKEND_SYSTEM_PROMPT : string :=
  "You are a Senior Software Engineer, specializing in TypeScript." ++ nl ++ nl ++
  "    Answer any questions I have about the codebase, based on the code provided. " ++
  "Always consider all of the context provided when forming a response." ++ nl ++ "    ".

(** backend/main.py [perform_rag]. *)
Definition perform_rag_backend (query namespace : string) : rag string :=
  let! vector := call_embed query in
  let! matches := call_index vector 10 namespace in
  match matches with
  | [] => rag_ret NO_CONTEXT_ANSWER
  | _ =>
      let contexts := map match_text matches in
      let augmented_query :=
        "<CONTEXT>" ++ nl ++ py_join context_separator contexts ++ nl ++ "-------" ++ nl ++
        "</CONTEXT>" ++ nl ++ nl ++ nl ++ nl ++ "MY QUESTION:" ++ nl ++ query in
      call_llm [("system", BACKEND_SYSTEM_PROMPT); ("user", augmented_query)]
  end.

(** The query text main.py [query_codebase] hands to [perform_rag]: the
    history, one ["role: content"] line per entry, before the query. *)
Definition history_augmented_query (query : string) (history : list (string * string)) : string :=
  let history_context := py_join nl (map (fun '(role, content) => role ++ ": " ++ content) history) in
  if String.eqb history_context "" then query
  else "History:" ++ nl ++ history_context ++ nl ++ nl ++ "Query:" ++ nl ++ query.

(** main.py [query_codebase]. *)
Definition query_codebase (query : string) (history : list (string * string)) (namespace : string)
  : rag string :=
  perform_rag (history_augmented_query query history) namespace.

(** Number of language-model calls in a trace. *)
Definition llm_calls (tr : list event) : nat :=
  length (List.filter (fun e => match e with EvLLM _ => true | _ => false end) tr).

End Rag.

(** ** Cloning: main.py clone_repository and github_clone.py clone_repo *)

Definition CLONE_DIR : string := "./cloned_repos".

(** The path [os.path.exists] tests: a trailing separator names the same
    directory. *)
Definition norm_path (p : string) : string :=
  if str_endswith "/" p && negb (String.eqb p "/")
  then substring 0 (String.length p - 1) p else p.

(** The file system as the set of existing paths. *)
Definition path_exists (fs : gset string) (p : string) : bool :=
  bool_decide (norm_path p ∈ fs).

(** [if not os.path.exists(CLONE_DIR): os.makedirs(CLONE_DIR)] *)
Definition ensure_clone_dir (fs : gset string) : gset string :=
  if path_exists fs CLONE_DIR then fs else {[CLONE_DIR]} ∪ fs.

(** The [HTTPException] raised by the endpoints. *)
Record http_error := {
  status_code : nat;
  detail : string
}.

(** A call of [Repo.clone_from(url, path)]. *)
Inductive clone_event :=
| EvClone (url path : string).

Section Clone.

(** [Repo.clone_from(url, path)]: [None] on success (the path then
    exists), [Some msg] when it raises with message [msg]. *)
Variable clone_from : string -> string -> option string.

(** main.py [clone_repository]: the result, the file system after, and the
    clone calls made. *)
Definition clone_repository (repo_url : string) (fs : gset string)
  : (http_error + string) * gset string * list clone_event :=
  let repo_name := repo_namespace repo_url in
  let repo_path := os_path_join CLONE_DIR repo_name in
  let fs1 := ensure_clone_dir fs in
  if path_exists fs1 repo_path then (inr repo_path, fs1, [])
  else match clone_from repo_url repo_path with
       | None => (inr repo_path, {[norm_path repo_path]} ∪ fs1, [EvClone repo_url repo_path])
       | Some _ => (inl {| status_code := 500; detail := "Failed to clone repository." |},
                    fs1, [EvClone repo_url repo_path])
       end.

(** github_clone.py [clone_repo]: returns [{"status": ..., "repo_path": ...}]
    as the pair [(status, repo_path)]. *)
Definition clone_repo (repo_url : string) (fs : gset string)
  : (http_error + string * string) * gset string * list clone_event :=
  let repo_name := repo_namespace repo_url in
  let repo_path := os_path_join CLONE_DIR repo_name in
  let fs1 := ensure_clone_dir fs in
  if path_exists fs1 repo_path then (inr ("already_cloned", repo_path), fs1, [])
  else match clone_from repo_url repo_path with
       | None => (inr ("cloned", repo_path), {[norm_path repo_path]} ∪ fs1,
                  [EvClone repo_url repo_path])
       | Some msg => (inl {| status_code := 500; detail := msg |}, fs1, [EvClone repo_url repo_path])
       end.

End Clone.

Arguments embed_chunk {vec} encode chunk.
Arguments generate_embedding {vec} encode chunks.
Arguments EvEmbed {vec} text.
Arguments EvIndexQuery {vec} vector top_k namespace.
Arguments EvLLM {vec} messages.
Arguments perform_rag {vec} embed_query index_query llm_complete query namespace _.
Arguments perform_rag_backend {vec} embed_query index_query llm_complete query namespace _.
Arguments query_codebase {vec} embed_query index_query llm_complete query history namespace _.
Arguments llm_calls {vec} tr.

(** ** backend/main.py query_codebase: the namespace inside the query text *)

(** [c.isspace()] for a one-byte character. *)
Definition is_space (c : ascii) : bool :=
  let n := nat_of_ascii c in
  ((Nat.leb 9 n && Nat.leb n 13) || (Nat.leb 28 n && Nat.leb n 32) ||
   Nat.eqb n 133 || Nat.eqb n 160)%bool.

(** [s.lstrip()] *)
Fixpoint py_lstrip (s : string) : string :=
  match s with
  | EmptyString => EmptyString
  | String c s' => if is_space c then py_lstrip s' else s
  end.

(** [s.rstrip()] *)
Fixpoint py_rstrip (s : string) : string :=
  match s with
  | EmptyString => EmptyString
  | String c s' =>
      let r := py_rstrip s' in
      if String.eqb r "" && is_space c then "" else String c r
  end.

(** [s.strip()] *)
Definition py_strip (s : string) : string := py_rstrip (py_lstrip s).

(** The first word of a string that starts with a non-space, and the rest. *)
Fixpoint span_word (s : string) : string * string :=
  match s with
  | EmptyString => ("", "")
  | String c s' =>
      if is_space c then ("", s)
      else let '(w, r) := span_word s' in (String c w, r)
  end.

(** [s.split(maxsplit=1)] *)
Definition py_split_ws1 (s : string) : list string :=
  let s1 := py_lstrip s in
  if String.eqb s1 "" then []
  else let '(w, rest) := span_word s1 in
       let rest' := py_lstrip rest in
       if String.eqb rest' "" then [w] else [w; rest'].

(** The text before the first occurrence of [sep] in [s] and the text after
    it, if [sep] occurs. *)
Fixpoint split_first (sep s : string) : option (string * string) :=
  if str_startswith sep s
  then Some ("", substring (String.length sep) (String.length s - String.length sep) s)
  else match s with
       | EmptyString => None
       | String c s' =>
           match split_first sep s' with
           | Some (a, b) => Some (String c a, b)
           | None => None
           end
       end.

(** [s.split(sep)[1]] when [sep in s]: the text between the first and the
    second occurrence of [sep] (or the end). *)
Definition py_split_str_1 (sep s : string) : string :=
  match split_first sep s with
  | Some (_, after) =>
      match split_first sep after with
      | Some (mid, _) => mid
      | None => after
      end
  | None => ""
  end.

Definition DEFAULT_QUESTION : string := "What is this code about?".

Definition UNPACK_ERROR : string := "not enough values to unpack (expected at least 1, got 0)".

(** The [if "namespace=" in request.query] block: the namespace and the
    query passed on, or the message of the [ValueError] the unpacking
    [namespace, *query_parts = ...] raises. *)
Definition backend_route (request_query : string) : string + (string * string) :=
  if str_contains "namespace=" request_query then
    let namespace_and_query := py_strip (py_split_str_1 "namespace=" request_query) in
    match py_split_ws1 namespace_and_query with
    | [] => inl UNPACK_ERROR
    | namespace :: query_parts =>
        inr (namespace, match query_parts with q :: _ => q | [] => DEFAULT_QUESTION end)
    end
  else inr ("default", request_query).

(** backend/main.py [query_codebase]: the answer or the [HTTPException],
    and the external calls made. *)
Definition backend_query_codebase {vec : Type} (embed_query : string -> vec)
  (index_query : vec -> nat -> string -> list pc_match)
  (llm_complete : list (string * string) -> string)
  (request_query : string) : (http_error + string) * list (event vec) :=
  match backend_route request_query with
  | inl msg => (inl {| status_code := 500; detail := msg |}, [])
  | inr (namespace, query) =>
      let '(answer, tr) :=
        perform_rag_backend embed_query index_query llm_complete query namespace [] in
      (inr answer, tr)
  end.

(** ** Repository submission: the [/submit-repo] endpoints *)

(** What [get_huggingface_embeddings] is given: main.py passes the chunk
    dictionaries, backend/main.py their string forms. *)
Inductive emb_input :=
| ChunkDicts (chunks : list pydict)
| ChunkTexts (texts : list string).

(** What [get_huggingface_embeddings] returns: a list or array of [n]
    embeddings, another value, or an exception with its message. *)
Inductive emb_result :=
| EmbArray (n : nat)
| EmbOther
| EmbRaise (msg : string).

(** [Document(page_content=..., metadata={"repo_url": ...})] *)
Record document := {
  page_content : string;
  doc_repo_url : string
}.

(** The external calls of a submission, in order. *)
Inductive submit_event :=
| EvCloneRepo (url path : string)
| EvEmbedChunks (input : emb_input)
| EvStore (documents : list document) (namespace : string).

Definition SUCCESS_MESSAGE : string := "Repository processed successfully.".

Definition UNEXPECTED_ERROR : string := "An unexpected error occurred.".

Definition err500 (msg : string) : http_error := {| status_code := 500; detail := msg |}.

Definition clone_events (evs : list clone_event) : list submit_event :=
  map (fun '(EvClone u p) => EvCloneRepo u p) evs.

Section Submit.

Variable clone_from : string -> string -> option string.
(** [os.walk(repo_path)]: the [(root, files)] pairs it yields. *)
Variable os_walk : string -> list (string * list string).
Variable get_file_content : string -> option string.
Variable tree_sitter_parse : option string -> string -> option node.
(** [str(chunk)] for a chunk dictionary. *)
Variable chunk_str : pydict -> string.
(** [str(e)] for an [HTTPException]. *)
Variable http_error_str : http_error -> string.
Variable get_huggingface_embeddings : emb_input -> emb_result.
(** [store_embeddings(documents, namespace=...)]: [Some msg] when it raises. *)
Variable store_embeddings : list document -> string -> option string.

Definition chunk_document (repo_url : string) (c : pydict) : document :=
  {| page_content := chunk_str c; doc_repo_url := repo_url |}.

(** main.py [submit_repo]: the reply (the [HTTPException] raised or the
    message returned), the file system after, and the external calls. *)
Definition submit_repo (repo_url : string) (fs : gset string)
  : (http_error + string) * gset string * list submit_event :=
  let namespace := repo_namespace repo_url in
  let '(r, fs1, cl) := clone_repository clone_from repo_url fs in
  let tr := clone_events cl in
  match r with
  | inl e => (inl (err500 (http_error_str e)), fs1, tr)
  | inr repo_path =>
      match parse_repo_store_all get_file_content tree_sitter_parse (os_walk repo_path) with
      | inl msg => (inl (err500 msg), fs1, tr)
      | inr [] =>
          let e := {| status_code := 400; detail := "No valid code chunks found." |} in
          (inl (err500 (http_error_str e)), fs1, tr)
      | inr chunks =>
          let tr1 := app tr [EvEmbedChunks (ChunkDicts chunks)] in
          match get_huggingface_embeddings (ChunkDicts chunks) with
          | EmbRaise msg => (inl (err500 msg), fs1, tr1)
          | _ =>
              let documents := map (chunk_document repo_url) chunks in
              let tr2 := app tr1 [EvStore documents namespace] in
              match store_embeddings documents namespace with
              | Some msg => (inl (err500 msg), fs1, tr2)
              | None => (inr SUCCESS_MESSAGE, fs1, tr2)
              end
          end
      end
  end.

(** backend/main.py [submit_repo]: an [HTTPException] is raised again as
    it is, any other exception becomes [UNEXPECTED_ERROR]. *)
Definition submit_repo_backend (repo_url : string) (fs : gset string)
  : (http_error + string) * gset string * list submit_event :=
  let namespace := repo_namespace repo_url in
  let '(r, fs1, cl) := clone_repository clone_from repo_url fs in
  let tr := clone_events cl in
  match r with
  | inl e => (inl e, fs1, tr)
  | inr repo_path =>
      match parse_repo_store_all get_file_content tree_sitter_parse (os_walk repo_path) with
      | inl _ => (inl (err500 UNEXPECTED_ERROR), fs1, tr)
      | inr [] =>
          (inl {| status_code := 400;
                  detail := "No valid code chunks found in the repository." |}, fs1, tr)
      | inr chunks =>
          let texts := map chunk_str chunks in
          let tr1 := app tr [EvEmbedChunks (ChunkTexts texts)] in
          match get_huggingface_embeddings (ChunkTexts texts) with
          | EmbRaise _ => (inl (err500 UNEXPECTED_ERROR), fs1, tr1)
          | EmbOther | EmbArray 0 => (inl (err500 "Failed to generate embeddings."), fs1, tr1)
          | EmbArray (S _) =>
              let documents := map (chunk_document repo_url) chunks in
              let tr2 := app tr1 [EvStore documents namespace] in
              match store_embeddings documents namespace with
              | Some _ => (inl (err500 UNEXPECTED_ERROR), fs1, tr2)
              | None => (inr SUCCESS_MESSAGE, fs1, tr2)
              end
          end
      end
  end.

End Submit.

(** ** The Gradio front end: app.py *)

(** A message dictionary of the chat, as its items in insertion order. *)
Abbreviation chat_dict := (list (string * string)).

Definition chat_message (role content : string) : chat_dict :=
  [("role", role); ("content", content)].

(** [human, ai = d] for a dictionary [d]: iterating a dictionary yields its
    keys, so the two names are bound to its first and second key; a
    dictionary of another size raises [ValueError] with this message. *)
Definition unpack_pair (d : chat_dict) : string + (string * string) :=
  match d with
  | [(k1, _); (k2, _)] => inr (k1, k2)
  | _ =>
      inl (if Nat.ltb (length d) 2
           then "not enough values to unpack (expected 2, got " ++ pretty (length d) ++ ")"
           else "too many values to unpack (expected 2)")
  end.

(** The list comprehension [formatted_history] over [enumerate(history)],
    from index [i]. *)
Fixpoint format_history (i : nat) (history : list chat_dict) : string + list chat_dict :=
  match history with
  | [] => inr []
  | d :: rest =>
      match unpack_pair d with
      | inl msg => inl msg
      | inr (human, ai) =>
          match format_history (S i) rest with
          | inl msg => inl msg
          | inr tl =>
              inr ((if Nat.even i then chat_message "user" human
                    else chat_message "assistant" ai) :: tl)
          end
      end
  end.

(** The JSON body of [POST /query]. *)
Record query_payload := {
  payload_query : string;
  payload_history : list chat_dict;
  payload_namespace : string
}.

(** [requests.post(...)] followed by [response.json()]: the status code
    and the JSON object, or the message of the exception raised. *)
Inductive api_response :=
| Response (status : nat) (body : gmap string string)
| RequestFailed (msg : string).

(** [body.get(key, default)] *)
Definition json_get (body : gmap string string) (key default : string) : string :=
  match body !! key with Some v => v | None => default end.

(** The requests the front end sends to the backend. *)
Inductive ui_call :=
| CallNamespaces
| CallSubmit (repo_url : string)
| CallQuery (payload : query_payload).

(** [if x:] for the optional string of a dropdown. *)
Definition truthy (v : option string) : bool :=
  match v with Some s => negb (String.eqb s "") | None => false end.

(** app.py [query_with_history]: the text shown and the requests sent;
    [resp] is what the request to [/query], if sent, returns. *)
Definition query_with_history (message : string) (history : list chat_dict) (namespace : string)
  (resp : api_response) : string * list ui_call :=
  match format_history 0 history with
  | inl msg => ("Failed to process query: " ++ msg, [])
  | inr formatted_history =>
      let payload := {| payload_query := message; payload_history := formatted_history;
                        payload_namespace := namespace |} in
      (match resp with
       | Response status body =>
           if Nat.eqb status 200 then json_get body "answer" "No response."
           else "Error: " ++ json_get body "detail" "Unknown error"
       | RequestFailed msg => "Failed to process query: " ++ msg
       end, [CallQuery payload])
  end.

(** app.py [submit_repository]; [resp] is what the request returns. *)
Definition submit_repository (repo_url : string) (resp : api_response) : string * list ui_call :=
  (match resp with
   | Response status body =>
       if Nat.eqb status 200 then json_get body "message" "Repository indexed successfully! 🚀"
       else "Error: " ++ json_get body "detail" "Unknown error"
   | RequestFailed msg => "Failed to clone repository: " ++ msg
   end, [CallSubmit repo_url]).

(** app.py [handle_query]: the new chat shown and the requests sent (the
    message box is cleared in both cases). *)
Definition handle_query (message : string) (history : list chat_dict) (namespace : option string)
  (resp : api_response) : list chat_dict * list ui_call :=
  match namespace with
  | None => (app history [chat_message "system" "Please select a namespace first!"], [])
  | Some ns =>
      let '(response, calls) := query_with_history message history ns resp in
      (app history [chat_message "user" message; chat_message "assistant" response], calls)
  end.

(** The components and states of [create_ui]. *)
Record ui_state := {
  repo_url_input : string;
  namespace_choices : list string;
  namespace_dropdown : option string;
  clone_status : string;
  chat_history : list chat_dict;
  chatbot : list chat_dict;
  message_input : string
}.

(** The page as [create_ui] builds it, given what [fetch_namespaces()]
    returns. *)
Definition ui_init (namespaces : list string) : ui_state :=
  {| repo_url_input := ""; namespace_choices := namespaces; namespace_dropdown := None;
     clone_status := ""; chat_history := []; chatbot := []; message_input := "" |}.

(** What the user does, with what the backend answers to the requests the
    handler sends. A change of the dropdown's value, by the user or by a
    handler's update, fires [namespace_dropdown.change]. *)
Inductive ui_event :=
| TypeRepoUrl (s : string)
| TypeMessage (s : string)
| ChangeNamespace (v : option string)
| ClickClone (submit_resp : api_response) (namespaces : list string)
| ClickSend (query_resp : api_response).

(** [update_namespace_or_clone]: the dropdown's new choices and value (if
    updated), the clone status and the chat history. *)
Definition update_namespace_or_clone (repo_url : string) (selected_namespace : option string)
  (submit_resp : api_response) (namespaces : list string)
  : option (list string * option string) * string * list chat_dict * list ui_call :=
  if negb (String.eqb repo_url "") then
    let '(message, calls) := submit_repository repo_url submit_resp in
    (Some (namespaces, None), message, [], app calls [CallNamespaces])
  else match selected_namespace with
       | Some ns =>
           if truthy (Some ns) then (None, "Selected namespace: " ++ ns, [], [])
           else (None, "Please provide a repository URL or select a namespace.", [], [])
       | None => (None, "Please provide a repository URL or select a namespace.", [], [])
       end.

(** [reset_chat_on_namespace_change]: the chat history and the status. *)
Definition reset_chat_on_namespace_change (selected_namespace : option string)
  : list chat_dict * string :=
  match selected_namespace with
  | Some ns => if truthy (Some ns) then ([], "Switched to namespace: " ++ ns)
               else ([], "No namespace selected.")
  | None => ([], "No namespace selected.")
  end.

(** One event with the handler [create_ui] wires to it, writing the
    handler's outputs. *)
Definition ui_step (s : ui_state) (e : ui_event) : ui_state * list ui_call :=
  match e with
  | TypeRepoUrl u =>
      ({| repo_url_input := u; namespace_choices := namespace_choices s;
          namespace_dropdown := namespace_dropdown s; clone_status := clone_status s;
          chat_history := chat_history s; chatbot := chatbot s;
          message_input := message_input s |}, [])
  | TypeMessage m =>
      ({| repo_url_input := repo_url_input s; namespace_choices := namespace_choices s;
          namespace_dropdown := namespace_dropdown s; clone_status := clone_status s;
          chat_history := chat_history s; chatbot := chatbot s; message_input := m |}, [])
  | ChangeNamespace v =>
      let '(history, status) := reset_chat_on_namespace_change v in
      ({| repo_url_input := repo_url_input s; namespace_choices := namespace_choices s;
          namespace_dropdown := v; clone_status := status;
          chat_history := history; chatbot := chatbot s;
          message_input := message_input s |}, [])
  | ClickClone submit_resp namespaces =>
      let '(dropdown, status, history, calls) :=
        update_namespace_or_clone (repo_url_input s) (namespace_dropdown s) submit_resp namespaces in
      let '(choices, value) :=
        match dropdown with
        | Some (cs, v) => (cs, v)
        | None => (namespace_choices s, namespace_dropdown s)
        end in
      ({| repo_url_input := repo_url_input s; namespace_choices := choices;
          namespace_dropdown := value; clone_status := status;
          chat_history := history; chatbot := chatbot s;
          message_input := message_input s |}, calls)
  | ClickSend query_resp =>
      let '(chat, calls) :=
        handle_query (message_input s) (chat_history s) (namespace_dropdown s) query_resp in
      ({| repo_url_input := repo_url_input s; namespace_choices := namespace_choices s;
          namespace_dropdown := namespace_dropdown s; clone_status := clone_status s;
          chat_history := chat_history s; chatbot := chat;
          message_input := "" |}, calls)
  end.

(** A session: the state after the events and the requests sent, in order. *)
Fixpoint ui_run (s : ui_state) (es : list ui_event) : ui_state * list ui_call :=
  match es with
  | [] => (s, [])
  | e :: es' =>
      let '(s1, c1) := ui_step s e in
      let '(s2, c2) := ui_run s1 es' in
      (s2, app c1 c2)
  end.

(** A repository with one Python file, for the examples below. *)
Definition sample_url : string := "https://github.com/org/sample.git".

Definition sample_walk (_ : string) : list (string * list string) :=
  [(os_path_join CLONE_DIR "sample", ["main.py"])].

Definition sample_content (_ : string) : option string := Some "x = 1".

(** ** Helpers for the properties below *)

(** The text of a chunk's ["content"] when it is a string. *)
Definition content_text (c : pydict) : string :=
  match c !! "content" with Some (VStr s) => s | _ => "" end.

(** A child of the tree-sitter root that the if/elif chain recognises. *)
Definition recognised (child : node) : bool :=
  match chunk_type_of (ntype child) with Some _ => true | None => false end.

Definition is_warning (e : log_entry) : bool :=
  match e with LogWarning _ => true | LogDebug _ _ _ => false end.

Definition char_in (c : ascii) (s : string) : bool :=
  existsb (Ascii.eqb c) (list_ascii_of_string s).

Definition no_space (s : string) : bool :=
  forallb (fun c => negb (is_space c)) (list_ascii_of_string s).

(** The chat shown after a send: nothing yet, the system reminder, or one
    exchange. *)
Definition chat_shape (chat : list chat_dict) : Prop :=
  chat = [] \/ chat = [chat_message "system" "Please select a namespace first!"] \/
  exists m r, chat = [chat_message "user" m; chat_message "assistant" r].

Definition empty_history_call (c : ui_call) : Prop :=
  match c with CallQuery p => payload_history p = [] | _ => True end.

(** [entry['role']] and [entry['content']] of main.py [query_codebase] for
    each entry of the request's history; [None] is the [KeyError]. A JSON
    object with a repeated key keeps the last value. *)
Definition json_key (d : chat_dict) (key : string) : option string :=
  match find (fun kv => String.eqb (fst kv) key) (rev d) with
  | Some (_, v) => Some v
  | None => None
  end.

Fixpoint request_history (h : list chat_dict) : option (list (string * string)) :=
  match h with
  | [] => Some []
  | d :: t =>
      match json_key d "role", json_key d "content", request_history t with
      | Some r, Some c, Some t' => Some ((r, c) :: t')
      | _, _, _ => None
      end
  end.

(** ** Facts about the string helpers and the module constants *)

Lemma str_startswith_trans (a b c : string) :
  str_startswith a b = true -> str_startswith b c = true -> str_startswith a c = true.
Proof.
  revert b c; induction a as [|x a IH]; intros b c Hab Hbc; [reflexivity|].
  destruct b as [|y b]; [discriminate|]; destruct c as [|z c]; [discriminate|].
  simpl in *.
  destruct (Ascii.ascii_dec x y) as [<-|]; [|discriminate].
  destruct (Ascii.ascii_dec x z) as [<-|]; [|discriminate].
  eauto.
Qed.

(** A prefix of a path that contains [d] makes the whole path contain [d]. *)
Lemma str_contains_prefix (d dir root : string) :
  str_contains d dir = true -> str_startswith dir root = true -> str_contains d root = true.
Proof.
  revert root; induction dir as [|c dir IH]; intros root Hc Hp.
  - simpl in Hc. destruct d; [|discriminate].
    destruct root; reflexivity.
  - destruct root as [|c' root]; [discriminate|].
    simpl in Hp. destruct (Ascii.ascii_dec c c') as [<-|]; [|discriminate].
    simpl in Hc. apply orb_true_iff in Hc as [Hc|Hc].
    + simpl. apply orb_true_iff. left.
      eapply str_startswith_trans; [exact Hc|]. simpl.
      destruct (Ascii.ascii_dec c c); [exact Hp|congruence].
    + simpl. apply orb_true_iff. right. eauto.
Qed.

Lemma str_mem_In (x : string) (xs : list string) :
  str_mem x xs = true <-> In x xs.
Proof.
  unfold str_mem. rewrite existsb_exists. split.
  - intros (y & Hy & Heq). apply String.eqb_eq in Heq. subst. exact Hy.
  - intros Hx. exists x. split; [exact Hx|apply String.eqb_refl].
Qed.

Lemma supported_not_ignored (ext : string) :
  str_mem ext SUPPORTED_EXTENSIONS = true -> str_mem ext IGNORED_EXTENSIONS = false.
Proof.
  rewrite str_mem_In. unfold SUPPORTED_EXTENSIONS.
  intros H. repeat (destruct H as [<-|H]; [reflexivity|]). contradiction.
Qed.

Lemma root_ignored_spec (root : string) :
  root_ignored root = true <-> exists d, In d IGNORED_DIRS /\ str_contains d root = true.
Proof. unfold root_ignored. apply existsb_exists. Qed.

(** ** Facts about the structural chunker *)

Lemma parse_children_fst (code : string) (cs : list node) :
  fst (parse_children code cs) = flat_map (fun ch => fst (parse_child code ch)) cs.
Proof.
  induction cs as [|c cs IH]; [reflexivity|]. simpl.
  destruct (parse_child code c) as [ch1 l1].
  destruct (parse_children code cs) as [ch2 l2]. simpl in *. rewrite IH. reflexivity.
Qed.

Lemma parse_children_snd (code : string) (cs : list node) :
  snd (parse_children code cs) = flat_map (fun ch => snd (parse_child code ch)) cs.
Proof.
  induction cs as [|c cs IH]; [reflexivity|]. simpl.
  destruct (parse_child code c) as [ch1 l1].
  destruct (parse_children code cs) as [ch2 l2]. simpl in *. rewrite IH. reflexivity.
Qed.

Lemma in_parse (code : string) (tree : node) (c : pydict) :
  In c (fst (parse code tree)) ->
  exists child k, In child (children tree) /\ chunk_type_of (ntype child) = Some k /\
                  c = structural_chunk code k child.
Proof.
  unfold parse. rewrite parse_children_fst. rewrite in_flat_map.
  intros (child & Hin & Hc). unfold parse_child in Hc.
  destruct (chunk_type_of (ntype child)) as [k|] eqn:Hk; [|destruct Hc].
  destruct Hc as [<-|[]]. exists child, k. auto.
Qed.

(** A node with its children dropped: what [parse] may look at of a
    top-level node. *)
Definition strip_children (n : node) : node :=
  Node (ntype n) (start_byte n) (end_byte n) (start_point n) (end_point n) [].

Lemma parse_child_strip (code : string) (n : node) :
  parse_child code (strip_children n) = parse_child code n.
Proof. destruct n; reflexivity. Qed.

Lemma chunk_type_of_cases (ty k : string) :
  chunk_type_of ty = Some k ->
  In k ["class"; "method"; "variable"; "import"; "export"].
Proof.
  unfold chunk_type_of.
  repeat match goal with
         | |- context [if ?b then _ else _] => destruct b
         end; intros H; inversion H; simpl; tauto.
Qed.

(** ** Facts about the repository scan *)

Section IngestionFacts.

Variable get_file_content : string -> option string.
Variable tree_sitter_parse : option string -> string -> option node.

Local Abbreviation process_file := (process_file get_file_content tree_sitter_parse).
Local Abbreviation process_root := (process_root get_file_content tree_sitter_parse).
Local Abbreviation parse_repo_store_all := (parse_repo_store_all get_file_content tree_sitter_parse).

Lemma in_process_file (root f : string) (c : pydict) :
  In c (process_file root f) ->
  exists code,
    get_file_content (os_path_join root f) = Some code /\ code <> "" /\
    str_mem (os_path_splitext_ext f) SUPPORTED_EXTENSIONS = true /\
    (c = file_chunk code (os_path_join root f) \/
     exists tree, tree_sitter_parse (language_of (os_path_splitext_ext f)) code = Some tree /\
                  In c (fst (parse code tree))).
Proof.
  unfold process_file.
  destruct (str_mem _ IGNORED_EXTENSIONS); [intros []|].
  destruct (str_mem _ SUPPORTED_EXTENSIONS) eqn:Hsup; [|intros []].
  destruct (get_file_content _) as [code|]; [|intros []].
  destruct (String.eqb code "") eqn:Hempty; [intros []|].
  apply String.eqb_neq in Hempty.
  destruct (tree_sitter_parse _ code) as [tree|] eqn:Ht; intros Hin.
  - apply in_app_or in Hin as [Hin|[<-|[]]].
    + exists code. repeat split; auto. right. exists tree. auto.
    + exists code. repeat split; auto.
  - destruct Hin as [<-|[]]. exists code. repeat split; auto.
Qed.

Lemma in_walk (walk : list (string * list string)) (c : pydict) :
  In c (flat_map process_root walk) ->
  exists root files f, In (root, files) walk /\ root_ignored root = false /\ In f files /\
                       In c (process_file root f).
Proof.
  rewrite in_flat_map. intros ([root files] & Hw & Hc).
  simpl in Hc. destruct (root_ignored root) eqn:Hig; [destruct Hc|].
  apply in_flat_map in Hc as (f & Hf & Hc). exists root, files, f. auto.
Qed.

Lemma process_root_ignored (root : string) (files : list string) :
  root_ignored root = true -> process_root (root, files) = [].
Proof. simpl. intros ->. reflexivity. Qed.

Lemma flat_map_process_root_filter (walk : list (string * list string)) :
  flat_map process_root walk =
  flat_map process_root (List.filter (fun e => negb (root_ignored (fst e))) walk).
Proof.
  induction walk as [|[root files] walk IH]; [reflexivity|].
  simpl List.filter. destruct (root_ignored root) eqn:Hig; simpl negb; cbv iota.
  - rewrite <- IH. simpl. rewrite Hig. reflexivity.
  - simpl. rewrite Hig, IH. reflexivity.
Qed.

End IngestionFacts.

(** ** Claims about ingestion *)

(** C1 (counterexample): a file with an unsupported extension ([notes.rb])
    contributes no chunk at all, in particular no whole-file chunk. *)
Lemma C1_unsupported_file_no_chunk :
  parse_repo_store_all
    (fun p => if String.eqb p "repo/main.py" then Some "print(1)" else Some "puts 1")
    (fun _ _ => None)
    [("repo", ["notes.rb"; "main.py"])]
  = inr [file_chunk "print(1)" "repo/main.py"] /\
  file_chunk "print(1)" "repo/main.py" !! "content" <> Some (VStr "puts 1").
Proof. split; [reflexivity|vm_compute; congruence]. Qed.

(** C1 (amended): a file whose extension is not in SUPPORTED_EXTENSIONS
    contributes no chunk; a file with a supported extension, listed under a
    root the ignore filter keeps, whose content is readable and non-empty,
    contributes a ["file"] chunk holding its full text, whether or not
    tree-sitter parses it. *)
Theorem supported_file_has_file_chunk
  (get_file_content : string -> option string)
  (tree_sitter_parse : option string -> string -> option node)
  (walk : list (string * list string)) (root f code : string) (files : list string) :
  (str_mem (os_path_splitext_ext f) SUPPORTED_EXTENSIONS = false ->
   process_file get_file_content tree_sitter_parse root f = []) /\
  (In (root, files) walk -> root_ignored root = false -> In f files ->
   str_mem (os_path_splitext_ext f) SUPPORTED_EXTENSIONS = true ->
   get_file_content (os_path_join root f) = Some code -> code <> "" ->
   exists l, parse_repo_store_all get_file_content tree_sitter_parse walk = inr l /\
             In (file_chunk code (os_path_join root f)) l).
Proof.
  split.
  - intros Hsup. unfold process_file. rewrite Hsup.
    destruct (str_mem _ IGNORED_EXTENSIONS); reflexivity.
  - intros Hw Hig Hf Hsup Hread Hne.
    assert (Hin : In (file_chunk code (os_path_join root f))
                     (flat_map (process_root get_file_content tree_sitter_parse) walk)).
    { apply in_flat_map. exists (root, files). split; [exact Hw|].
      simpl. rewrite Hig. apply in_flat_map. exists f. split; [exact Hf|].
      unfold process_file. rewrite (supported_not_ignored _ Hsup), Hsup, Hread.
      apply String.eqb_neq in Hne. rewrite Hne.
      destruct (tree_sitter_parse _ code).
      - apply in_or_app. right. left. reflexivity.
      - left. reflexivity. }
    unfold parse_repo_store_all.
    destruct (flat_map _ walk) as [|c l] eqn:E; [destruct Hin|].
    exists (c :: l). split; [reflexivity|exact Hin].
Qed.

Lemma C1_witness :
  exists l, parse_repo_store_all (fun _ => Some "x = 1") (fun _ _ => None)
              [("repo", ["a.py"])] = inr l /\
            In (file_chunk "x = 1" (os_path_join "repo" "a.py")) l.
Proof.
  apply (proj2 (supported_file_has_file_chunk (fun _ => Some "x = 1") (fun _ _ => None)
                 [("repo", ["a.py"])] "repo" "a.py" "x = 1" ["a.py"]));
    [left; reflexivity | reflexivity | left; reflexivity | reflexivity | reflexivity | discriminate].
Defined.

(** The tree tree-sitter returns for ["def f():\n  return 1\n"] in the
    examples below: one top-level [function_definition] spanning rows 0..1. *)
Definition example_code : string := "def f():" ++ nl ++ "  return 1" ++ nl.

Definition example_fun : node :=
  Node "function_definition" 0 19 (0, 0) (1, 10)
       [Node "identifier" 4 5 (0, 4) (0, 5) []].

Definition example_tree : node :=
  Node "module" 0 20 (0, 0) (2, 0) [example_fun].

(** C6 (counterexample): ingesting [main.py] yields a structural chunk with
    no path and a whole-file chunk with no line range, whose [file_path]
    starts with the clone directory rather than being repository-relative. *)
Lemma C6_chunk_without_line_range :
  parse_repo_store_all (fun _ => Some example_code) (fun _ _ => Some example_tree)
    [("./cloned_repos/sample", ["main.py"])]
  = inr [structural_chunk example_code "method" example_fun;
         file_chunk example_code "./cloned_repos/sample/main.py"] /\
  structural_chunk example_code "method" example_fun !! "file_path" = None /\
  structural_chunk example_code "method" example_fun !! "path" = None /\
  file_chunk example_code "./cloned_repos/sample/main.py" !! "start_line" = None /\
  file_chunk example_code "./cloned_repos/sample/main.py" !! "end_line" = None.
Proof. repeat split; vm_compute; reflexivity. Qed.

(** C6 (amended): every chunk ingestion returns comes from a readable,
    non-empty file with a supported extension under a kept root, and is
    either the whole-file chunk [{type: "file", content: code, file_path:
    os.path.join(root, file)}] (no line range) or the structural chunk of a
    direct child of the tree-sitter root, whose content is
    [code[start_byte:end_byte]] and whose lines are the node's rows plus
    one (no path). *)
Theorem ingestion_chunk_shapes
  (get_file_content : string -> option string)
  (tree_sitter_parse : option string -> string -> option node)
  (walk : list (string * list string)) (l : list pydict) :
  parse_repo_store_all get_file_content tree_sitter_parse walk = inr l ->
  forall c, In c l ->
  exists root files f code,
    In (root, files) walk /\ root_ignored root = false /\ In f files /\
    str_mem (os_path_splitext_ext f) SUPPORTED_EXTENSIONS = true /\
    get_file_content (os_path_join root f) = Some code /\ code <> "" /\
    (c = file_chunk code (os_path_join root f) \/
     exists tree child k,
       tree_sitter_parse (language_of (os_path_splitext_ext f)) code = Some tree /\
       In child (children tree) /\ chunk_type_of (ntype child) = Some k /\
       c = structural_chunk code k child).
Proof.
  unfold parse_repo_store_all.
  destruct (flat_map _ walk) as [|c0 l0] eqn:E; [discriminate|].
  intros Hl. injection Hl as <-. rewrite <- E. intros c Hc.
  apply in_walk in Hc as (root & files & f & Hw & Hig & Hf & Hc).
  apply in_process_file in Hc as (code & Hread & Hne & Hsup & Hc).
  exists root, files, f, code. repeat split; auto.
  destruct Hc as [Hc|(tree & Ht & Hc)]; [left; exact Hc|right].
  apply in_parse in Hc as (child & k & Hch & Hk & ->).
  exists tree, child, k. auto.
Qed.

Lemma C6_witness :
  exists root files f code,
    In (root, files) [("repo", ["a.py"])] /\ root_ignored root = false /\ In f files /\
    str_mem (os_path_splitext_ext f) SUPPORTED_EXTENSIONS = true /\
    Some example_code = Some code /\ code <> "" /\
    (file_chunk example_code "repo/a.py" = file_chunk code (os_path_join root f) \/
     exists tree child k,
       Some example_tree = Some tree /\
       In child (children tree) /\ chunk_type_of (ntype child) = Some k /\
       file_chunk example_code "repo/a.py" = structural_chunk code k child).
Proof.
  apply (ingestion_chunk_shapes (fun _ => Some example_code) (fun _ _ => Some example_tree)
           [("repo", ["a.py"])]
           [structural_chunk example_code "method" example_fun; file_chunk example_code "repo/a.py"]).
  - vm_compute. reflexivity.
  - right. left. reflexivity.
Defined.

(** ** Claims about the structural chunker *)

(** C7: [parse] looks only at the direct children of the root (its result
    is unchanged when the root's own fields are erased and the children's
    subtrees cut off), turns each recognised child into exactly one chunk
    whose type is one of class, method, variable, import or export, in
    order, and drops each unrecognised child, logging a warning for it. *)
Theorem parse_top_level_only (code : string) (root : node) :
  parse code root = parse code (Node "" 0 0 (0, 0) (0, 0) (map strip_children (children root))) /\
  fst (parse code root) =
    flat_map (fun child => match chunk_type_of (ntype child) with
                           | Some k => [structural_chunk code k child]
                           | None => []
                           end) (children root) /\
  (forall c, In c (fst (parse code root)) ->
     exists k, c !! "type" = Some (VStr k) /\
               In k ["class"; "method"; "variable"; "import"; "export"]) /\
  (forall child, In child (children root) -> chunk_type_of (ntype child) = None ->
     In (LogWarning ("Unrecognized node type: " ++ ntype child)) (snd (parse code root))).
Proof.
  split; [|split; [|split]].
  - unfold parse. simpl. induction (children root) as [|ch cs IH]; [reflexivity|].
    simpl. rewrite parse_child_strip, <- IH. reflexivity.
  - unfold parse. rewrite parse_children_fst. apply flat_map_ext. intros child.
    unfold parse_child. destruct (chunk_type_of (ntype child)); reflexivity.
  - intros c Hc. apply in_parse in Hc as (child & k & _ & Hk & ->).
    exists k. split; [reflexivity|exact (chunk_type_of_cases _ _ Hk)].
  - intros child Hch Hk. unfold parse. rewrite parse_children_snd.
    apply in_flat_map. exists child. split; [exact Hch|].
    unfold parse_child. rewrite Hk. right. left. reflexivity.
Qed.

(** ** Claims about the scan as a whole *)

(** C9: when the traversal yields no chunk, [parse_repo_store_all] raises
    ["No valid code chunks found in the repository."]; it never returns an
    empty list. *)
Theorem parse_repo_store_all_never_empty
  (get_file_content : string -> option string)
  (tree_sitter_parse : option string -> string -> option node)
  (walk : list (string * list string)) :
  (flat_map (process_root get_file_content tree_sitter_parse) walk = [] ->
   parse_repo_store_all get_file_content tree_sitter_parse walk =
     inl "No valid code chunks found in the repository.") /\
  (forall l, parse_repo_store_all get_file_content tree_sitter_parse walk = inr l -> l <> []).
Proof.
  unfold parse_repo_store_all. split.
  - intros ->. reflexivity.
  - destruct (flat_map _ walk) as [|c l0]; [discriminate|].
    intros l Hl. injection Hl as <-. discriminate.
Qed.

(** C10: a root is skipped when any ignored name occurs anywhere in its
    path string, so every [os.walk] root below a directory whose path
    contains an ignored name (such as [distribution], which contains
    [dist]) contributes nothing, and the result is that of the walk with
    those roots removed. *)
Theorem ignored_dirs_by_substring
  (get_file_content : string -> option string)
  (tree_sitter_parse : option string -> string -> option node)
  (walk : list (string * list string)) :
  parse_repo_store_all get_file_content tree_sitter_parse walk =
    parse_repo_store_all get_file_content tree_sitter_parse
      (List.filter (fun e => negb (root_ignored (fst e))) walk) /\
  (forall (dir root : string) (files : list string),
     (exists d, In d IGNORED_DIRS /\ str_contains d dir = true) ->
     str_startswith dir root = true ->
     process_root get_file_content tree_sitter_parse (root, files) = []) /\
  root_ignored "./cloned_repos/sample/distribution" = true.
Proof.
  split; [|split].
  - unfold parse_repo_store_all. rewrite <- flat_map_process_root_filter. reflexivity.
  - intros dir root files (d & Hd & Hc) Hp. apply process_root_ignored.
    apply root_ignored_spec. exists d. split; [exact Hd|].
    exact (str_contains_prefix d dir root Hc Hp).
  - reflexivity.
Qed.

(** ** Claims about the retrieval-augmented answerer *)

Lemma string_app_assoc (a b c : string) : (a ++ b) ++ c = a ++ (b ++ c).
Proof. induction a as [|x a IH]; [reflexivity|exact (f_equal (String x) IH)]. Qed.

Section RagClaims.

Context {vec : Type}.
Variable embed_query : string -> vec.
Variable index_query : vec -> nat -> string -> list pc_match.
Variable llm_complete : list (string * string) -> string.

(** The trace of [perform_rag] (main.py): the query embedding, the index
    query with [top_k = 10], then the language-model call if and only if
    some match came back. *)
Lemma perform_rag_trace (query namespace : string) :
  perform_rag embed_query index_query llm_complete query namespace [] =
  match index_query (embed_query query) 10 namespace with
  | [] => (NO_CONTEXT_ANSWER,
           [EvEmbed query; EvIndexQuery (embed_query query) 10 namespace])
  | ms =>
      let msgs := [("system", "Answer as concisely as possible.");
                   ("user", "<CONTEXT>" ++ nl ++ py_join context_separator (map match_text ms) ++
                            nl ++ "-------" ++ nl ++ "</CONTEXT>" ++ nl ++ nl ++ query)] in
      (llm_complete msgs,
       [EvEmbed query; EvIndexQuery (embed_query query) 10 namespace; EvLLM msgs])
  end.
Proof.
  unfold perform_rag, rag_bind, call_embed, call_index, call_llm, rag_ret. simpl.
  destruct (index_query (embed_query query) 10 namespace); reflexivity.
Qed.

(** The same for [perform_rag] of backend/main.py. *)
Lemma perform_rag_backend_trace (query namespace : string) :
  perform_rag_backend embed_query index_query llm_complete query namespace [] =
  match index_query (embed_query query) 10 namespace with
  | [] => (NO_CONTEXT_ANSWER,
           [EvEmbed query; EvIndexQuery (embed_query query) 10 namespace])
  | ms =>
      let msgs := [("system", BACKEND_SYSTEM_PROMPT);
                   ("user", "<CONTEXT>" ++ nl ++ py_join context_separator (map match_text ms) ++
                            nl ++ "-------" ++ nl ++ "</CONTEXT>" ++ nl ++ nl ++ nl ++ nl ++
                            "MY QUESTION:" ++ nl ++ query)] in
      (llm_complete msgs,
       [EvEmbed query; EvIndexQuery (embed_query query) 10 namespace; EvLLM msgs])
  end.
Proof.
  unfold perform_rag_backend, rag_bind, call_embed, call_index, call_llm, rag_ret. simpl.
  destruct (index_query (embed_query query) 10 namespace); reflexivity.
Qed.

(** C2: in both revisions of [perform_rag], an empty match list yields the
    canned answer ["No relevant context found for the query."]; the
    language model is called exactly once when some match is retrieved and
    never otherwise. *)
Theorem perform_rag_no_match_no_llm (query namespace : string) :
  (index_query (embed_query query) 10 namespace = [] ->
   fst (perform_rag embed_query index_query llm_complete query namespace []) = NO_CONTEXT_ANSWER /\
   fst (perform_rag_backend embed_query index_query llm_complete query namespace []) = NO_CONTEXT_ANSWER) /\
  llm_calls (snd (perform_rag embed_query index_query llm_complete query namespace [])) =
    (match index_query (embed_query query) 10 namespace with [] => 0 | _ => 1 end) /\
  llm_calls (snd (perform_rag_backend embed_query index_query llm_complete query namespace [])) =
    (match index_query (embed_query query) 10 namespace with [] => 0 | _ => 1 end).
Proof.
  rewrite perform_rag_trace, perform_rag_backend_trace.
  destruct (index_query (embed_query query) 10 namespace);
    (split; [intros H; try discriminate H; split; reflexivity | split; reflexivity]).
Qed.

(** C3 (amended): main.py [query_codebase] embeds for retrieval the
    history-augmented query ([query] alone when the history is empty,
    otherwise ["History:\n" + role-tagged lines + "\n\nQuery:\n" + query])
    and the index is queried with that embedding. *)
Theorem query_codebase_embeds_augmented (query namespace : string) (history : list (string * string)) :
  history_augmented_query query [] = query /\
  exists rest,
    snd (query_codebase embed_query index_query llm_complete query history namespace []) =
      EvEmbed (history_augmented_query query history) ::
      EvIndexQuery (embed_query (history_augmented_query query history)) 10 namespace :: rest.
Proof.
  split; [reflexivity|]. unfold query_codebase. rewrite perform_rag_trace.
  destruct (index_query _ 10 namespace); simpl; eexists; reflexivity.
Qed.

(** C8 (amended): in both revisions, [perform_rag] joins the [text]
    metadata of every match (empty when absent), duplicates included, in the
    order the index returns them, with ["\n\n-------\n\n"] between
    [<CONTEXT>\n] and [\n-------\n</CONTEXT>], and sends that block before
    the question as the user message of the one language-model call: main.py
    puts ["\n\n"] between the block and the question, backend/main.py
    ["\n\n\n\nMY QUESTION:\n"], with its own system prompt. *)
Theorem perform_rag_context_no_dedup (query namespace : string) :
  index_query (embed_query query) 10 namespace <> [] ->
  let block := "<CONTEXT>" ++ nl ++
                 py_join context_separator
                   (map match_text (index_query (embed_query query) 10 namespace)) ++
                 nl ++ "-------" ++ nl ++ "</CONTEXT>" in
  exists msgs msgs',
    snd (perform_rag embed_query index_query llm_complete query namespace []) =
      [EvEmbed query; EvIndexQuery (embed_query query) 10 namespace; EvLLM msgs] /\
    msgs = [("system", "Answer as concisely as possible.");
            ("user", block ++ nl ++ nl ++ query)] /\
    snd (perform_rag_backend embed_query index_query llm_complete query namespace []) =
      [EvEmbed query; EvIndexQuery (embed_query query) 10 namespace; EvLLM msgs'] /\
    msgs' = [("system", BACKEND_SYSTEM_PROMPT);
             ("user", block ++ nl ++ nl ++ nl ++ nl ++ "MY QUESTION:" ++ nl ++ query)].
Proof.
  intros Hne. cbv zeta. rewrite perform_rag_trace, perform_rag_backend_trace.
  destruct (index_query (embed_query query) 10 namespace); [congruence|].
  do 2 eexists. split; [reflexivity|]. split.
  - f_equal. f_equal. f_equal. rewrite <- !string_app_assoc. reflexivity.
  - split; [reflexivity|]. f_equal. f_equal. f_equal. rewrite <- !string_app_assoc. reflexivity.
Qed.

End RagClaims.

(** A duplicate pair of matches and an index that always returns it. *)
Definition dup_match (sc : nat) : pc_match :=
  {| score := sc; match_metadata := {["text" := "def foo(): return 42"]} |}.

Definition dup_index (_ : string) (_ : nat) (_ : string) : list pc_match :=
  [dup_match 2; dup_match 1].

(** C8 (counterexample): two retrieved matches with identical text both
    reach the prompt, in main.py and in backend/main.py; the context is not
    the one of the collapsed list. *)
Lemma C8_duplicates_not_collapsed :
  snd (perform_rag (fun s => s) dup_index (fun _ => "") "what does foo do?" "sample" []) =
    [EvEmbed "what does foo do?"; EvIndexQuery "what does foo do?" 10 "sample";
     EvLLM [("system", "Answer as concisely as possible.");
            ("user", "<CONTEXT>" ++ nl ++ "def foo(): return 42" ++ context_separator ++
                     "def foo(): return 42" ++ nl ++ "-------" ++ nl ++ "</CONTEXT>" ++ nl ++ nl ++
                     "what does foo do?")]] /\
  snd (perform_rag_backend (fun s => s) dup_index (fun _ => "") "what does foo do?" "sample" []) =
    [EvEmbed "what does foo do?"; EvIndexQuery "what does foo do?" 10 "sample";
     EvLLM [("system", BACKEND_SYSTEM_PROMPT);
            ("user", "<CONTEXT>" ++ nl ++ "def foo(): return 42" ++ context_separator ++
                     "def foo(): return 42" ++ nl ++ "-------" ++ nl ++ "</CONTEXT>" ++ nl ++ nl ++
                     nl ++ nl ++ "MY QUESTION:" ++ nl ++ "what does foo do?")]] /\
  "<CONTEXT>" ++ nl ++ "def foo(): return 42" ++ context_separator ++ "def foo(): return 42" <>
  "<CONTEXT>" ++ nl ++ py_join context_separator ["def foo(): return 42"].
Proof. split; [reflexivity|split; [reflexivity|vm_compute; congruence]]. Qed.

Lemma C8_witness :
  dup_index "q" 10 "sample" <> [] /\
  let block := "<CONTEXT>" ++ nl ++
                 py_join context_separator (map match_text (dup_index "q" 10 "sample")) ++
                 nl ++ "-------" ++ nl ++ "</CONTEXT>" in
  exists msgs msgs',
    snd (perform_rag (fun s => s) dup_index (fun _ => "") "q" "sample" []) =
      [EvEmbed "q"; EvIndexQuery "q" 10 "sample"; EvLLM msgs] /\
    msgs = [("system", "Answer as concisely as possible.");
            ("user", block ++ nl ++ nl ++ "q")] /\
    snd (perform_rag_backend (fun s => s) dup_index (fun _ => "") "q" "sample" []) =
      [EvEmbed "q"; EvIndexQuery "q" 10 "sample"; EvLLM msgs'] /\
    msgs' = [("system", BACKEND_SYSTEM_PROMPT);
             ("user", block ++ nl ++ nl ++ nl ++ nl ++ "MY QUESTION:" ++ nl ++ "q")].
Proof.
  split; [discriminate|].
  apply (perform_rag_context_no_dedup (fun s => s) dup_index (fun _ => "") "q" "sample").
  discriminate.
Defined.

(** C3 (counterexample): with the identity as embedding, an empty history
    and a one-entry history send different texts, hence different vectors,
    to the index for the same query and namespace. *)
Lemma C3_history_changes_retrieval :
  snd (query_codebase (fun s => s) (fun _ _ _ => []) (fun _ => "") "q" [] "sample" []) =
    [EvEmbed "q"; EvIndexQuery "q" 10 "sample"] /\
  snd (query_codebase (fun s => s) (fun _ _ _ => []) (fun _ => "") "q" [("user", "hi")] "sample" []) =
    [EvEmbed ("History:" ++ nl ++ "user: hi" ++ nl ++ nl ++ "Query:" ++ nl ++ "q");
     EvIndexQuery ("History:" ++ nl ++ "user: hi" ++ nl ++ nl ++ "Query:" ++ nl ++ "q") 10 "sample"] /\
  ("History:" ++ nl ++ "user: hi" ++ nl ++ nl ++ "Query:" ++ nl ++ "q") <> "q".
Proof. split; [reflexivity|split; [reflexivity|vm_compute; congruence]]. Qed.

(** ** Claims about the embedding generator *)

Lemma parse_repo_store_all_inr_cons (get_file_content : string -> option string)
  (tree_sitter_parse : option string -> string -> option node)
  (walk : list (string * list string)) (chunks : list pydict) :
  parse_repo_store_all get_file_content tree_sitter_parse walk = inr chunks -> chunks <> [].
Proof.
  unfold parse_repo_store_all.
  destruct (flat_map _ walk) as [|c cs]; intros H; inversion H; discriminate.
Qed.

Lemma parsed_chunk_keys (get_file_content : string -> option string)
  (tree_sitter_parse : option string -> string -> option node)
  (walk : list (string * list string)) (chunks : list pydict) (c : pydict) :
  parse_repo_store_all get_file_content tree_sitter_parse walk = inr chunks -> In c chunks ->
  exists content ty,
    c !! "content" = Some (VStr content) /\ c !! "type" = Some ty /\ c !! "path" = None.
Proof.
  unfold parse_repo_store_all.
  destruct (flat_map _ walk) as [|c0 cs] eqn:E; intros H Hin; [discriminate|].
  injection H as <-. rewrite <- E in Hin.
  apply in_walk in Hin as (root & files & f & _ & _ & _ & Hf).
  apply in_process_file in Hf as (code & _ & _ & _ & [->|(tree & _ & Hp)]).
  - exists code, (VStr "file"). split; [|split]; reflexivity.
  - apply in_parse in Hp as (child & k & _ & _ & ->).
    eexists _, (VStr k). split; [|split]; reflexivity.
Qed.



(** C4: on chunks with a string ["content"], a ["type"] and a ["path"],
    [generate_embedding] returns one record per chunk, in order, pairing
    the encoding of the chunk's content with its type, name, path,
    start_line and end_line (missing optional keys read as [None]). But the
    chunks [parse_repo_store_all] produces, which the docstring names as
    its input, carry ["file_path"] or no path key at all: on every
    repository that yields a chunk the call raises [KeyError('path')], as
    for the one-file repository [sample_walk]. *)
Theorem generate_embedding_rejects_parsed_chunks {vec : Type} (encode : string -> vec) :
  (forall chunks : list pydict,
     Forall (fun c => exists content ty path,
               c !! "content" = Some (VStr content) /\ c !! "type" = Some ty /\
               c !! "path" = Some path) chunks ->
     generate_embedding encode chunks =
       inr (map (fun c => {| embedding := encode (content_text c);
                             metadata := list_to_map
                               [("type", dict_get c "type"); ("name", dict_get c "name");
                                ("path", dict_get c "path");
                                ("start_line", dict_get c "start_line");
                                ("end_line", dict_get c "end_line")] |}) chunks)) /\
  (forall (get_file_content : string -> option string)
          (tree_sitter_parse : option string -> string -> option node)
          (walk : list (string * list string)) (chunks : list pydict),
     parse_repo_store_all get_file_content tree_sitter_parse walk = inr chunks ->
     generate_embedding encode chunks = inl (KeyError "path")) /\
  parse_repo_store_all sample_content (fun _ _ => None) (sample_walk "") =
    inr [file_chunk "x = 1" (os_path_join (os_path_join CLONE_DIR "sample") "main.py")] /\
  generate_embedding encode
    [file_chunk "x = 1" (os_path_join (os_path_join CLONE_DIR "sample") "main.py")] =
    inl (KeyError "path").
Proof.
  split; [|split; [|split]].
  - induction 1 as [|c cs (content & ty & path & Hc & Ht & Hp) _ IH]; [reflexivity|].
    assert (Ht' : content_text c = content) by (unfold content_text; rewrite Hc; reflexivity).
    assert (Hty : dict_get c "type" = ty) by (unfold dict_get; rewrite Ht; reflexivity).
    assert (Hpa : dict_get c "path" = path) by (unfold dict_get; rewrite Hp; reflexivity).
    simpl. rewrite IH, Ht', Hty, Hpa. unfold embed_chunk, dict_getitem. rewrite Hc, Ht, Hp.
    reflexivity.
  - intros gfc tsp walk chunks H.
    destruct chunks as [|c cs]; [exact (False_rect _ (parse_repo_store_all_inr_cons _ _ _ _ H eq_refl))|].
    destruct (parsed_chunk_keys gfc tsp walk (c :: cs) c H (or_introl eq_refl))
      as (content & ty & Hc & Ht & Hp).
    simpl. unfold embed_chunk, dict_getitem. rewrite Hc, Ht, Hp. reflexivity.
  - vm_compute. reflexivity.
  - reflexivity.
Qed.



(** ** Claims about namespace derivation *)

(** C5: the namespace of the spec's example URL is ["sample"], but
    [.replace(".git", "")] also removes a ".git" inside the last segment:
    [my.github.io] becomes ["myhub.io"] instead of ["my.github.io"]. *)
Theorem repo_namespace_replaces_inner_git :
  repo_namespace "https://github.com/org/sample.git" = "sample" /\
  repo_namespace "https://github.com/org/my.github.io" = "myhub.io" /\
  repo_namespace "https://github.com/org/my.github.io" <> "my.github.io".
Proof. split; [reflexivity|split; [reflexivity|vm_compute; congruence]]. Qed.

(** ** Further properties of ingestion *)

Lemma parse_length (code : string) (tree : node) :
  length (fst (parse code tree)) = length (List.filter recognised (children tree)).
Proof.
  unfold parse. rewrite parse_children_fst.
  induction (children tree) as [|ch cs IH]; [reflexivity|].
  simpl. rewrite length_app, IH. unfold parse_child, recognised.
  destruct (chunk_type_of (ntype ch)); reflexivity.
Qed.

(** X1: a readable, non-empty file with a supported extension yields its
    structural chunks, one per recognised top-level node and none of type
    ["file"], followed by exactly one whole-file chunk; when tree-sitter
    fails there are no structural chunks. *)
Theorem process_file_layout
  (get_file_content : string -> option string)
  (tree_sitter_parse : option string -> string -> option node)
  (root f code : string) :
  str_mem (os_path_splitext_ext f) SUPPORTED_EXTENSIONS = true ->
  get_file_content (os_path_join root f) = Some code -> code <> "" ->
  exists structural,
    process_file get_file_content tree_sitter_parse root f =
      app structural [file_chunk code (os_path_join root f)] /\
    Forall (fun c => c !! "type" <> Some (VStr "file")) structural /\
    length structural =
      match tree_sitter_parse (language_of (os_path_splitext_ext f)) code with
      | Some tree => length (List.filter recognised (children tree))
      | None => 0
      end.
Proof.
  intros Hsup Hread Hne. unfold process_file.
  rewrite (supported_not_ignored _ Hsup), Hsup, Hread.
  apply String.eqb_neq in Hne. rewrite Hne.
  destruct (tree_sitter_parse _ code) as [tree|].
  - exists (fst (parse code tree)). split; [reflexivity|split; [|apply parse_length]].
    apply List.Forall_forall. intros c Hc.
    apply in_parse in Hc as (child & k & _ & Hk & ->).
    apply chunk_type_of_cases in Hk.
    change (structural_chunk code k child !! "type") with (Some (VStr k)).
    intros [= ->]. simpl in Hk. intuition discriminate.
  - exists []. split; [reflexivity|split; [constructor|reflexivity]].
Qed.

Lemma X1_witness :
  exists structural,
    process_file (fun _ => Some example_code) (fun _ _ => Some example_tree) "repo" "a.py" =
      app structural [file_chunk example_code (os_path_join "repo" "a.py")] /\
    Forall (fun c => c !! "type" <> Some (VStr "file")) structural /\
    length structural =
      match Some example_tree with
      | Some tree => length (List.filter recognised (children tree))
      | None => 0
      end.
Proof.
  apply (process_file_layout (fun _ => Some example_code) (fun _ _ => Some example_tree)
           "repo" "a.py" example_code); [reflexivity|reflexivity|discriminate].
Defined.

(** X2: a file that cannot be read, or whose content is empty, yields no
    chunk whatever its extension. *)
Theorem unreadable_or_empty_file_no_chunk
  (get_file_content : string -> option string)
  (tree_sitter_parse : option string -> string -> option node)
  (root f : string) :
  get_file_content (os_path_join root f) = None \/
  get_file_content (os_path_join root f) = Some "" ->
  process_file get_file_content tree_sitter_parse root f = [].
Proof.
  intros Hread. unfold process_file.
  destruct (str_mem _ IGNORED_EXTENSIONS); [reflexivity|].
  destruct (str_mem _ SUPPORTED_EXTENSIONS); [|reflexivity].
  destruct Hread as [->| ->]; reflexivity.
Qed.

Lemma X2_witness :
  process_file (fun _ => Some "") (fun _ _ => Some example_tree) "repo" "a.py" = [].
Proof. apply unreadable_or_empty_file_no_chunk. right. reflexivity. Defined.

(** X3: scanning two walks one after the other gives the chunks of the
    first followed by those of the second; the error is raised only when
    neither yields a chunk. *)
Theorem parse_repo_store_all_app
  (get_file_content : string -> option string)
  (tree_sitter_parse : option string -> string -> option node)
  (w1 w2 : list (string * list string)) :
  parse_repo_store_all get_file_content tree_sitter_parse (app w1 w2) =
  match parse_repo_store_all get_file_content tree_sitter_parse w1,
        parse_repo_store_all get_file_content tree_sitter_parse w2 with
  | inr l1, inr l2 => inr (app l1 l2)
  | inr l1, inl _ => inr l1
  | inl _, inr l2 => inr l2
  | inl e, inl _ => inl e
  end.
Proof.
  unfold parse_repo_store_all. rewrite flat_map_app.
  destruct (flat_map _ w1) as [|c1 l1]; destruct (flat_map _ w2) as [|c2 l2];
    simpl; rewrite ?app_nil_r; reflexivity.
Qed.

(** X4: [parse] handles the top-level nodes one by one, in order: its
    chunks and log lines are those of each node concatenated. Each node
    writes exactly one debug line, and gives either exactly one chunk and
    no warning (a recognised type) or no chunk and exactly one warning
    (any other type), never both. In total, chunks and warnings add up to
    the number of top-level nodes. *)
Theorem parse_chunks_and_warnings (code : string) (root : node) :
  fst (parse code root) = flat_map (fun ch => fst (parse_child code ch)) (children root) /\
  snd (parse code root) = flat_map (fun ch => snd (parse_child code ch)) (children root) /\
  (forall ch,
     List.filter (fun e => negb (is_warning e)) (snd (parse_child code ch)) =
       [LogDebug (ntype ch) (start_point ch) (end_point ch)] /\
     ((exists k, chunk_type_of (ntype ch) = Some k /\
                 fst (parse_child code ch) = [structural_chunk code k ch] /\
                 List.filter is_warning (snd (parse_child code ch)) = []) \/
      (chunk_type_of (ntype ch) = None /\
       fst (parse_child code ch) = [] /\
       List.filter is_warning (snd (parse_child code ch)) =
         [LogWarning ("Unrecognized node type: " ++ ntype ch)]))) /\
  length (List.filter (fun e => negb (is_warning e)) (snd (parse code root))) = length (children root) /\
  length (fst (parse code root)) + length (List.filter is_warning (snd (parse code root))) =
    length (children root).
Proof.
  assert (Hnode : forall ch,
     List.filter (fun e => negb (is_warning e)) (snd (parse_child code ch)) =
       [LogDebug (ntype ch) (start_point ch) (end_point ch)] /\
     ((exists k, chunk_type_of (ntype ch) = Some k /\
                 fst (parse_child code ch) = [structural_chunk code k ch] /\
                 List.filter is_warning (snd (parse_child code ch)) = []) \/
      (chunk_type_of (ntype ch) = None /\
       fst (parse_child code ch) = [] /\
       List.filter is_warning (snd (parse_child code ch)) =
         [LogWarning ("Unrecognized node type: " ++ ntype ch)]))).
  { intros ch. unfold parse_child.
    destruct (chunk_type_of (ntype ch)) as [k|]; simpl.
    - split; [reflexivity|]. left. exists k. split; [reflexivity|split; reflexivity].
    - split; [reflexivity|]. right. split; [reflexivity|split; reflexivity]. }
  unfold parse. rewrite parse_children_snd, parse_children_fst.
  split; [reflexivity|]. split; [reflexivity|]. split; [exact Hnode|].
  induction (children root) as [|ch cs IH]; [split; reflexivity|].
  simpl. rewrite !List.filter_app, !length_app. destruct IH as [IH1 IH2].
  destruct (Hnode ch) as [Hdbg [(k & _ & Hch & Hw)|(_ & Hch & Hw)]];
    rewrite Hdbg, Hch, Hw; simpl; lia.
Qed.

(** ** Further properties of the embedding generator *)







(** ** Further properties of namespace derivation *)

Lemma str_contains_char (c : ascii) (s : string) :
  str_contains (String c EmptyString) s = char_in c s.
Proof.
  induction s as [|d s IH]; [reflexivity|].
  simpl. rewrite IH. unfold char_in. simpl.
  destruct (Ascii.ascii_dec c d) as [<-|Hne].
  - rewrite Ascii.eqb_refl. reflexivity.
  - apply Ascii.eqb_neq in Hne. rewrite Hne. reflexivity.
Qed.

Lemma char_in_cons (c d : ascii) (s : string) :
  char_in c (String d s) = Ascii.eqb c d || char_in c s.
Proof. reflexivity. Qed.

Lemma py_split_char_free (c : ascii) (s x : string) :
  In x (py_split c s) -> char_in c x = false.
Proof.
  revert x. induction s as [|d s IH]; intros x Hx.
  - destruct Hx as [<-|[]]. reflexivity.
  - simpl in Hx. destruct (Ascii.ascii_dec d c) as [->|Hne].
    + destruct Hx as [<-|Hx]; [reflexivity|auto].
    + destruct (py_split c s) as [|h t] eqn:E.
      * destruct Hx as [<-|[]]. rewrite char_in_cons.
        apply orb_false_iff. split; [apply Ascii.eqb_neq; congruence|reflexivity].
      * destruct Hx as [<-|Hx].
        -- rewrite char_in_cons. apply orb_false_iff.
           split; [apply Ascii.eqb_neq; congruence|apply IH; left; reflexivity].
        -- apply IH. right. exact Hx.
Qed.

Lemma last_forall {A : Type} (P : A -> Prop) (l : list A) (d : A) :
  (forall x, In x l -> P x) -> P d -> P (List.last l d).
Proof.
  revert d. induction l as [|a l IH]; intros d Hl Hd; [exact Hd|].
  destruct l as [|b l]; [apply Hl; left; reflexivity|].
  apply IH; [intros x Hx; apply Hl; right; exact Hx|exact Hd].
Qed.

Lemma substring_char_free (c : ascii) (s : string) (n m : nat) :
  char_in c s = false -> char_in c (substring n m s) = false.
Proof.
  revert n m. induction s as [|d s IH]; intros n m Hs.
  - destruct n, m; reflexivity.
  - rewrite char_in_cons in Hs. apply orb_false_iff in Hs as [Hd Hs].
    destruct n as [|n]; [destruct m as [|m]|]; simpl.
    + reflexivity.
    + rewrite char_in_cons, Hd. simpl.
      change (substring 0 m s) with (substring 0 m s). apply IH. exact Hs.
    + apply IH. exact Hs.
Qed.

Lemma py_replace_aux_char_free (c : ascii) (fuel : nat) (old s : string) :
  char_in c s = false -> char_in c (py_replace_aux fuel old "" s) = false.
Proof.
  revert s. induction fuel as [|fuel IH]; intros s Hs; [exact Hs|].
  destruct s as [|d s]; [reflexivity|]. cbn [py_replace_aux String.append].
  destruct (str_startswith old (String d s)).
  - apply IH. apply substring_char_free. exact Hs.
  - rewrite char_in_cons in *. apply orb_false_iff in Hs as [Hd Hs].
    rewrite Hd. apply IH. exact Hs.
Qed.

(** X7: the namespace derived from a repository URL never contains a
    ["/"], whatever the URL. *)
Theorem repo_namespace_no_slash (repo_url : string) :
  str_contains "/" (repo_namespace repo_url) = false.
Proof.
  rewrite str_contains_char. unfold repo_namespace, py_str_replace.
  cbn [String.eqb String.append]. apply py_replace_aux_char_free.
  apply (last_forall (fun x => char_in "/" x = false)); [|reflexivity].
  apply py_split_char_free.
Qed.

(** ** Properties of cloning *)

Lemma path_exists_clone_dir (fs : gset string) :
  path_exists (ensure_clone_dir fs) CLONE_DIR = true.
Proof.
  unfold ensure_clone_dir. destruct (path_exists fs CLONE_DIR) eqn:E; [exact E|].
  unfold path_exists. apply bool_decide_eq_true.
  replace (norm_path CLONE_DIR) with CLONE_DIR by reflexivity. set_solver.
Qed.

Lemma ensure_clone_dir_idem (fs : gset string) :
  path_exists fs CLONE_DIR = true -> ensure_clone_dir fs = fs.
Proof. unfold ensure_clone_dir. intros ->. reflexivity. Qed.

(** X8: [clone_repository] caches by path: once a call has returned a
    path, calling it again with the same URL returns the same path, makes
    no clone call and leaves the file system as it is. *)
Theorem clone_repository_cached (clone_from : string -> string -> option string)
  (repo_url : string) (fs fs' : gset string) (p : string) (ev : list clone_event) :
  clone_repository clone_from repo_url fs = (inr p, fs', ev) ->
  clone_repository clone_from repo_url fs' = (inr p, fs', []).
Proof.
  unfold clone_repository.
  set (rp := os_path_join CLONE_DIR (repo_namespace repo_url)).
  destruct (path_exists (ensure_clone_dir fs) rp) eqn:Hex.
  - intros [= <- <- _]. rewrite ensure_clone_dir_idem by apply path_exists_clone_dir.
    rewrite Hex. reflexivity.
  - destruct (clone_from repo_url rp); [discriminate|].
    intros [= <- <- _].
    assert (Hd : path_exists ({[norm_path rp]} ∪ ensure_clone_dir fs) CLONE_DIR = true).
    { pose proof (path_exists_clone_dir fs) as H. unfold path_exists in *.
      apply bool_decide_eq_true in H. apply bool_decide_eq_true. set_solver. }
    rewrite ensure_clone_dir_idem by exact Hd.
    assert (Hp : path_exists ({[norm_path rp]} ∪ ensure_clone_dir fs) rp = true).
    { unfold path_exists. apply bool_decide_eq_true. set_solver. }
    rewrite Hp. reflexivity.
Qed.

Lemma X8_witness :
  clone_repository (fun _ _ => None) "https://github.com/org/sample.git"
    ({[norm_path (os_path_join CLONE_DIR "sample")]} ∪ ensure_clone_dir ∅)
  = (inr (os_path_join CLONE_DIR "sample"),
     {[norm_path (os_path_join CLONE_DIR "sample")]} ∪ ensure_clone_dir ∅, []).
Proof.
  apply (clone_repository_cached (fun _ _ => None) _ ∅ _ _
           [EvClone "https://github.com/org/sample.git" (os_path_join CLONE_DIR "sample")]).
  vm_compute. reflexivity.
Defined.

Lemma py_split_trailing (c : ascii) (pre : string) :
  exists l, py_split c (pre ++ String c EmptyString) = app l [""] /\ l <> [].
Proof.
  induction pre as [|d pre (l & Hl & Hne)].
  - exists [""]. split; [simpl; destruct (Ascii.ascii_dec c c); [reflexivity|congruence]|discriminate].
  - simpl. rewrite Hl. destruct (Ascii.ascii_dec d c).
    + exists ("" :: l). split; [reflexivity|discriminate].
    + destruct l as [|h t]; [congruence|]. exists (String d h :: t). split; [reflexivity|discriminate].
Qed.

(** X9: for a URL ending in ["/"] the derived name is empty, so
    [clone_repository] returns the clone directory itself (["./cloned_repos/"])
    without any clone call, whatever repositories it already holds. *)
Theorem clone_repository_trailing_slash (clone_from : string -> string -> option string)
  (pre : string) (fs : gset string) :
  repo_namespace (pre ++ "/") = "" /\
  clone_repository clone_from (pre ++ "/") fs = (inr "./cloned_repos/", ensure_clone_dir fs, []).
Proof.
  assert (Hns : repo_namespace (pre ++ "/") = "").
  { unfold repo_namespace. destruct (py_split_trailing "/" pre) as (l & -> & _).
    rewrite List.last_last. reflexivity. }
  split; [exact Hns|]. unfold clone_repository. rewrite Hns.
  replace (path_exists (ensure_clone_dir fs) (os_path_join CLONE_DIR ""))
    with (path_exists (ensure_clone_dir fs) CLONE_DIR) by reflexivity.
  rewrite path_exists_clone_dir. reflexivity.
Qed.

(** X10: [clone_repo] of github_clone.py and [clone_repository] of main.py
    compute the same path, make the same clone calls and leave the same file
    system; [clone_repo] labels a hit ["already_cloned"] and a fresh clone
    ["cloned"], and both fail with status 500 (with the clone error's text
    for [clone_repo], a fixed message for [clone_repository]). *)
Theorem clone_repo_agrees (clone_from : string -> string -> option string)
  (repo_url : string) (fs : gset string) :
  let '(r1, fs1, ev1) := clone_repository clone_from repo_url fs in
  let '(r2, fs2, ev2) := clone_repo clone_from repo_url fs in
  fs1 = fs2 /\ ev1 = ev2 /\
  (forall p, r1 = inr p <-> r2 = inr ((match ev2 with [] => "already_cloned" | _ => "cloned" end), p)) /\
  (forall e, r1 = inl e -> e = {| status_code := 500; detail := "Failed to clone repository." |}) /\
  (forall e, r2 = inl e -> exists msg, clone_from repo_url (os_path_join CLONE_DIR (repo_namespace repo_url)) = Some msg /\
                                e = {| status_code := 500; detail := msg |}).
Proof.
  unfold clone_repository, clone_repo.
  destruct (path_exists _ _).
  - repeat split; try discriminate; congruence.
  - destruct (clone_from repo_url _) as [msg|] eqn:Hc.
    + repeat split; try discriminate; try congruence.
      intros e [= <-]. exists msg. auto.
    + repeat split; try discriminate; congruence.
Qed.

(** ** Properties of the namespace inside the query text *)

Lemma str_startswith_app_long (p s t : string) :
  String.length p <= String.length s -> str_startswith p (s ++ t) = str_startswith p s.
Proof.
  revert s. induction p as [|c p IH]; intros s Hlen; [reflexivity|].
  destruct s as [|d s]; [simpl in Hlen; lia|].
  simpl. destruct (Ascii.ascii_dec c d); [|reflexivity].
  apply IH. simpl in Hlen. lia.
Qed.

Lemma str_startswith_self (s t : string) : str_startswith s (s ++ t) = true.
Proof.
  induction s as [|c s IH]; [reflexivity|].
  simpl. destruct (Ascii.ascii_dec c c); [exact IH|congruence].
Qed.

Lemma substring_full (s : string) : substring 0 (String.length s) s = s.
Proof. induction s as [|c s IH]; [reflexivity|]. simpl. rewrite IH. reflexivity. Qed.

Lemma string_length_app (a b : string) :
  String.length (a ++ b) = String.length a + String.length b.
Proof. induction a as [|c a IH]; [reflexivity|]. simpl. rewrite IH. reflexivity. Qed.

Lemma substring_after (a b : string) :
  substring (String.length a) (String.length (a ++ b) - String.length a) (a ++ b) = b.
Proof.
  rewrite string_length_app. replace (String.length a + String.length b - String.length a)
    with (String.length b) by lia.
  induction a as [|c a IH]; [apply substring_full|exact IH].
Qed.

Lemma string_app_nil_r (a : string) : a ++ "" = a.
Proof. induction a as [|x a IH]; [reflexivity|exact (f_equal (String x) IH)]. Qed.

Lemma split_first_none (sep s : string) :
  str_contains sep s = false -> split_first sep s = None.
Proof.
  induction s as [|c s IH]; intros H; simpl in H |- *;
    apply orb_false_iff in H as [H1 H2]; rewrite H1; [reflexivity|].
  rewrite IH by exact H2. reflexivity.
Qed.

Lemma split_first_unfold (sep s : string) :
  split_first sep s =
  if str_startswith sep s
  then Some ("", substring (String.length sep) (String.length s - String.length sep) s)
  else match s with
       | EmptyString => None
       | String c s' =>
           match split_first sep s' with
           | Some (a, b) => Some (String c a, b)
           | None => None
           end
       end.
Proof. destruct s; reflexivity. Qed.

Lemma split_first_marker (pre rest : string) :
  str_contains "namespace=" (pre ++ "namespace") = false ->
  split_first "namespace=" (pre ++ "namespace=" ++ rest) = Some (pre, rest).
Proof.
  induction pre as [|c pre IH]; intros H.
  - change ("" ++ "namespace=" ++ rest) with ("namespace=" ++ rest).
    rewrite split_first_unfold, str_startswith_self, substring_after. reflexivity.
  - assert (H' : str_startswith "namespace=" (String c (pre ++ "namespace")) ||
                 str_contains "namespace=" (pre ++ "namespace") = false) by exact H.
    apply orb_false_iff in H' as [H1 H2].
    change (split_first "namespace=" (String c (pre ++ "namespace=" ++ rest)) =
            Some (String c pre, rest)).
    rewrite split_first_unfold.
    assert (E : String c (pre ++ "namespace=" ++ rest) =
                String c (pre ++ "namespace") ++ ("=" ++ rest)).
    { change (String c (pre ++ "namespace=" ++ rest) =
              String c ((pre ++ "namespace") ++ "=" ++ rest)).
      rewrite string_app_assoc. reflexivity. }
    assert (Hs : str_startswith "namespace=" (String c (pre ++ "namespace=" ++ rest)) = false).
    { rewrite E, str_startswith_app_long; [exact H1|].
      change (String.length (String c (pre ++ "namespace"))) with
        (S (String.length (pre ++ "namespace"))).
      rewrite string_length_app. simpl. lia. }
    rewrite Hs. cbv iota beta. rewrite IH by exact H2. reflexivity.
Qed.

Lemma py_lstrip_word (c : ascii) (s : string) :
  is_space c = false -> py_lstrip (String c s) = String c s.
Proof. intros H. simpl. rewrite H. reflexivity. Qed.

Lemma py_rstrip_app (a b : string) :
  py_rstrip b <> "" -> py_rstrip (a ++ b) = a ++ py_rstrip b.
Proof.
  intros Hb. induction a as [|c a IH]; [reflexivity|].
  change (py_rstrip (String c (a ++ b)) = String c (a ++ py_rstrip b)).
  simpl. rewrite IH. destruct (a ++ py_rstrip b)%string eqn:E; [|reflexivity].
  destruct a; [change ("" ++ py_rstrip b) with (py_rstrip b) in E; congruence|discriminate].
Qed.

Lemma py_rstrip_word_space (ns : string) :
  ns <> "" -> no_space ns = true -> py_rstrip (ns ++ " ") = ns.
Proof.
  induction ns as [|c ns IH]; intros Hne Hns; [congruence|].
  unfold no_space in Hns. simpl in Hns. apply andb_true_iff in Hns as [Hc Hns].
  apply negb_true_iff in Hc. simpl.
  destruct ns as [|d ns'].
  - simpl. rewrite Hc. reflexivity.
  - rewrite IH by (discriminate || exact Hns). simpl. reflexivity.
Qed.

Lemma span_word_no_space (ns x : string) :
  no_space ns = true -> span_word (ns ++ x) = let '(w, r) := span_word x in (ns ++ w, r).
Proof.
  induction ns as [|c ns IH]; intros Hns.
  - change ("" ++ x) with x. destruct (span_word x). reflexivity.
  - unfold no_space in Hns. simpl in Hns. apply andb_true_iff in Hns as [Hc Hns].
    apply negb_true_iff in Hc.
    change (span_word (String c (ns ++ x)) =
            let '(w, r) := span_word x in (String c ns ++ w, r)).
    cbn [span_word]. rewrite Hc, IH by exact Hns.
    destruct (span_word x). reflexivity.
Qed.

Lemma split_ws1_word (ns q : string) :
  ns <> "" -> no_space ns = true -> py_lstrip q = q ->
  py_split_ws1 (ns ++ " " ++ q) = if String.eqb q "" then [ns] else [ns; q].
Proof.
  intros Hne Hns Hq. unfold py_split_ws1.
  destruct ns as [|c ns']; [congruence|].
  assert (Hc : is_space c = false).
  { unfold no_space in Hns. simpl in Hns. apply andb_true_iff in Hns as [Hc _].
    apply negb_true_iff. exact Hc. }
  change (String c ns' ++ " " ++ q) with (String c (ns' ++ " " ++ q)).
  rewrite py_lstrip_word by exact Hc. simpl String.eqb at 1. cbv iota.
  change (String c (ns' ++ " " ++ q)) with (String c ns' ++ " " ++ q).
  rewrite span_word_no_space by exact Hns.
  change (span_word (" " ++ q)) with (span_word (String " " q)).
  cbn [span_word]. replace (is_space " ") with true by reflexivity. cbv iota beta.
  rewrite string_app_nil_r.
  change (py_lstrip (String " " q)) with (py_lstrip q). rewrite Hq.
  destruct (String.eqb q ""); reflexivity.
Qed.

Lemma str_startswith_contains (p s : string) :
  str_startswith p s = true -> str_contains p s = true.
Proof. intros H. destruct s; simpl; rewrite H; reflexivity. Qed.

Lemma str_contains_app_marker (a b : string) :
  str_contains "namespace=" (a ++ "namespace=" ++ b) = true.
Proof.
  induction a as [|c a IH].
  - change ("" ++ "namespace=" ++ b) with ("namespace=" ++ b).
    apply str_startswith_contains, str_startswith_self.
  - change (str_startswith "namespace=" (String c (a ++ "namespace=" ++ b)) ||
            str_contains "namespace=" (a ++ "namespace=" ++ b) = true).
    rewrite IH. apply orb_true_r.
Qed.

Lemma split_ws1_single (ns : string) :
  ns <> "" -> no_space ns = true -> py_split_ws1 ns = [ns].
Proof.
  intros Hne Hns. unfold py_split_ws1.
  destruct ns as [|c ns']; [congruence|].
  assert (Hc : is_space c = false).
  { unfold no_space in Hns. simpl in Hns. apply andb_true_iff in Hns as [Hc _].
    apply negb_true_iff. exact Hc. }
  rewrite py_lstrip_word by exact Hc. simpl String.eqb at 1. cbv iota.
  pose proof (span_word_no_space (String c ns') "" Hns) as Hs.
  rewrite string_app_nil_r in Hs. rewrite Hs. simpl. rewrite string_app_nil_r.
  reflexivity.
Qed.

Lemma py_lstrip_blank_no_marker (w : string) :
  py_lstrip w = "" -> str_contains "namespace=" w = false.
Proof.
  induction w as [|c w IH]; intros H; [reflexivity|].
  simpl in H. destruct (is_space c) eqn:Hc; [|discriminate].
  change (str_startswith "namespace=" (String c w) || str_contains "namespace=" w = false).
  rewrite IH by exact H. rewrite orb_false_r.
  cbn [str_startswith]. destruct (Ascii.ascii_dec "n" c) as [<-|]; [discriminate|reflexivity].
Qed.

(** X11: backend/main.py [query_codebase]: when the query contains one marker
    [namespace=] followed by a word without spaces, a single space and a
    question with no surrounding blanks (and no second marker), the route
    takes that word as namespace and the question as query, or the default
    question when nothing follows the word. *)
Theorem backend_route_marker (pre ns q : string)
  (Hpre : str_contains "namespace=" (pre ++ "namespace") = false)
  (Hne : ns <> "") (Hns : no_space ns = true)
  (Hrest : str_contains "namespace=" (ns ++ " " ++ q) = false)
  (Hl : py_lstrip q = q) (Hr : py_rstrip q = q) :
  backend_route (pre ++ "namespace=" ++ ns ++ " " ++ q) =
  inr (ns, if String.eqb q "" then DEFAULT_QUESTION else q).
Proof.
  unfold backend_route. rewrite str_contains_app_marker.
  unfold py_split_str_1. rewrite split_first_marker by exact Hpre.
  rewrite split_first_none by exact Hrest.
  assert (Hc : exists c ns', ns = String c ns' /\ is_space c = false).
  { destruct ns as [|c ns']; [congruence|]. exists c, ns'. split; [reflexivity|].
    unfold no_space in Hns. simpl in Hns. apply andb_true_iff in Hns as [Hc _].
    apply negb_true_iff. exact Hc. }
  destruct Hc as (c & ns' & -> & Hc).
  unfold py_strip.
  change (String c ns' ++ " " ++ q) with (String c (ns' ++ " " ++ q)).
  rewrite py_lstrip_word by exact Hc.
  change (String c (ns' ++ " " ++ q)) with (String c ns' ++ " " ++ q).
  destruct (String.eqb q "") eqn:Eq.
  - apply String.eqb_eq in Eq. subst q.
    change (String c ns' ++ " " ++ "") with (String c ns' ++ " ").
    rewrite py_rstrip_word_space by (discriminate || exact Hns).
    rewrite split_ws1_single by (discriminate || exact Hns). reflexivity.
  - apply String.eqb_neq in Eq.
    rewrite <- string_app_assoc, py_rstrip_app, Hr, string_app_assoc
      by (rewrite Hr; exact Eq).
    rewrite split_ws1_word by (discriminate || exact Hns || exact Hl).
    apply String.eqb_neq in Eq. rewrite Eq. reflexivity.
Qed.

Lemma backend_route_marker_witness :
  backend_route ("explain " ++ "namespace=" ++ "my-repo" ++ " " ++ "what does main do?") =
  inr ("my-repo", "what does main do?").
Proof.
  apply (backend_route_marker "explain " "my-repo" "what does main do?");
    (reflexivity || discriminate).
Defined.

(** X12: backend/main.py [query_codebase]: when only blanks follow the single
    marker [namespace=], unpacking the empty split fails, the endpoint
    answers with an HTTP 500 error carrying that message, and nothing is
    embedded, retrieved or generated. *)
Theorem backend_query_blank_namespace {vec : Type} (embed_query : string -> vec)
  (index_query : vec -> nat -> string -> list pc_match)
  (llm_complete : list (string * string) -> string) (pre w : string)
  (Hpre : str_contains "namespace=" (pre ++ "namespace") = false)
  (Hw : py_lstrip w = "") :
  backend_query_codebase embed_query index_query llm_complete (pre ++ "namespace=" ++ w) =
  (inl {| status_code := 500; detail := UNPACK_ERROR |}, []).
Proof.
  unfold backend_query_codebase, backend_route. rewrite str_contains_app_marker.
  unfold py_split_str_1. rewrite split_first_marker by exact Hpre.
  rewrite split_first_none by (apply py_lstrip_blank_no_marker; exact Hw).
  unfold py_strip. rewrite Hw. reflexivity.
Qed.

Lemma backend_query_blank_namespace_witness :
  backend_query_codebase (fun s : string => s) (fun _ _ _ => []) (fun _ => "")
    ("what is this? " ++ "namespace=" ++ "   ") =
  (inl {| status_code := 500; detail := UNPACK_ERROR |}, []).
Proof.
  apply (backend_query_blank_namespace (fun s : string => s) (fun _ _ _ => []) (fun _ => "")
           "what is this? " "   "); reflexivity.
Defined.

(** ** Properties of the submission endpoints *)

Lemma clone_repository_inl (clone_from : string -> string -> option string)
  (url : string) (fs fs1 : gset string) (e : http_error) (cl : list clone_event) :
  clone_repository clone_from url fs = (inl e, fs1, cl) ->
  e = err500 "Failed to clone repository.".
Proof.
  unfold clone_repository.
  destruct (path_exists _ _); [congruence|].
  destruct (clone_from _ _); intros H; inversion H; reflexivity.
Qed.

Lemma clone_repository_inr (clone_from : string -> string -> option string)
  (url : string) (fs fs1 : gset string) (path : string) (cl : list clone_event) :
  clone_repository clone_from url fs = (inr path, fs1, cl) ->
  path = os_path_join CLONE_DIR (repo_namespace url).
Proof.
  unfold clone_repository.
  destruct (path_exists _ _); [intros H; inversion H; reflexivity|].
  destruct (clone_from _ _); intros H; inversion H; reflexivity.
Qed.

Section SubmitFacts.

Variable clone_from : string -> string -> option string.
Variable os_walk : string -> list (string * list string).
Variable get_file_content : string -> option string.
Variable tree_sitter_parse : option string -> string -> option node.
Variable chunk_str : pydict -> string.
Variable http_error_str : http_error -> string.
Variable get_huggingface_embeddings : emb_input -> emb_result.
Variable store_embeddings : list document -> string -> option string.

Local Abbreviation submit :=
  (submit_repo clone_from os_walk get_file_content tree_sitter_parse chunk_str http_error_str
     get_huggingface_embeddings store_embeddings).
Local Abbreviation submit_backend :=
  (submit_repo_backend clone_from os_walk get_file_content tree_sitter_parse chunk_str
     get_huggingface_embeddings store_embeddings).
Local Abbreviation parse_all :=
  (parse_repo_store_all get_file_content tree_sitter_parse).

(** X13: backend/main.py [submit_repo] never answers with the status 400
    of its [if not chunks] branch: [parse_repo_store_all] raises instead of
    returning an empty list, so every failure is a 500 and every success
    carries [SUCCESS_MESSAGE]. *)
Theorem submit_repo_backend_never_400 (url : string) (fs : gset string) :
  match fst (fst (submit_backend url fs)) with
  | inl e => status_code e = 500
  | inr msg => msg = SUCCESS_MESSAGE
  end.
Proof.
  unfold submit_repo_backend.
  destruct (clone_repository clone_from url fs) as [[r fs1] cl] eqn:Ec.
  destruct r as [e|path].
  - apply clone_repository_inl in Ec. subst e. reflexivity.
  - destruct (parse_all (os_walk path)) as [msg|chunks] eqn:Ep; [reflexivity|].
    destruct chunks as [|c cs].
    + exfalso. exact (parse_repo_store_all_inr_cons _ _ _ _ Ep eq_refl).
    + destruct (get_huggingface_embeddings _) as [[|n]| |msg]; try reflexivity.
      destruct (store_embeddings _ _); reflexivity.
Qed.

(** X14: when the clone succeeds but the walk of the clone yields no chunk,
    neither endpoint computes embeddings or stores anything: main.py
    answers 500 with the message of the [ValueError], backend/main.py 500
    with [UNEXPECTED_ERROR]. *)
Theorem submit_repo_no_chunks (url : string) (fs fs1 : gset string) (path : string)
  (cl : list clone_event)
  (Hclone : clone_repository clone_from url fs = (inr path, fs1, cl))
  (Hwalk : flat_map (process_root get_file_content tree_sitter_parse) (os_walk path) = []) :
  submit url fs =
    (inl (err500 "No valid code chunks found in the repository."), fs1, clone_events cl) /\
  submit_backend url fs = (inl (err500 UNEXPECTED_ERROR), fs1, clone_events cl).
Proof.
  assert (Hp : parse_all (os_walk path) =
               inl "No valid code chunks found in the repository.").
  { unfold parse_repo_store_all. rewrite Hwalk. reflexivity. }
  unfold submit_repo, submit_repo_backend.
  rewrite Hclone, Hp. split; reflexivity.
Qed.

(** X15: a successful backend/main.py submission cloned (or found) the
    repository under [CLONE_DIR] at its derived name, embedded the string
    forms of all the chunks of that directory, got a non-empty list back,
    and stored one document per chunk, in order, under that same name. *)
Theorem submit_repo_backend_success (url : string) (fs fs' : gset string) (msg : string)
  (tr : list submit_event)
  (H : submit_backend url fs = (inr msg, fs', tr)) :
  exists path cl chunks n,
    clone_repository clone_from url fs = (inr path, fs', cl) /\
    path = os_path_join CLONE_DIR (repo_namespace url) /\
    parse_all (os_walk path) = inr chunks /\
    get_huggingface_embeddings (ChunkTexts (map chunk_str chunks)) = EmbArray (S n) /\
    store_embeddings (map (chunk_document chunk_str url) chunks) (repo_namespace url) = None /\
    tr = app (clone_events cl)
           [EvEmbedChunks (ChunkTexts (map chunk_str chunks));
            EvStore (map (chunk_document chunk_str url) chunks) (repo_namespace url)].
Proof.
  unfold submit_repo_backend in H.
  destruct (clone_repository clone_from url fs) as [[r fs1] cl] eqn:Ec.
  destruct r as [e|path]; [discriminate|].
  destruct (parse_all (os_walk path)) as [m|chunks] eqn:Ep; [discriminate|].
  destruct chunks as [|c cs]; [discriminate|].
  destruct (get_huggingface_embeddings _) as [[|n]| |m] eqn:Eg; try discriminate.
  destruct (store_embeddings _ _) eqn:Es; [discriminate|].
  inversion H; subst.
  exists path, cl, (c :: cs), n.
  split; [first [reflexivity|exact Ec]|]. split; [exact (clone_repository_inr _ _ _ _ _ _ Ec)|].
  split; [exact Ep|]. split; [exact Eg|]. split; [exact Es|].
  rewrite <- app_assoc. reflexivity.
Qed.

(** X16: a main.py submission succeeds exactly when the repository was
    cloned (or found) under [CLONE_DIR] at its derived name, the walk of
    that directory yields chunks, [get_huggingface_embeddings] does not
    raise on them and the store succeeds; it then stored one document per
    chunk, in order, under the derived name. The value the embedding call
    returns is not used: any value other than an exception, an empty array
    included, leads to the same success. *)
Theorem submit_repo_success (url : string) (fs fs' : gset string) (msg : string)
  (tr : list submit_event) :
  submit url fs = (inr msg, fs', tr) <->
  msg = SUCCESS_MESSAGE /\
  exists path cl chunks,
    clone_repository clone_from url fs = (inr path, fs', cl) /\
    path = os_path_join CLONE_DIR (repo_namespace url) /\
    parse_all (os_walk path) = inr chunks /\
    (forall m, get_huggingface_embeddings (ChunkDicts chunks) <> EmbRaise m) /\
    store_embeddings (map (chunk_document chunk_str url) chunks) (repo_namespace url) = None /\
    tr = app (clone_events cl)
           [EvEmbedChunks (ChunkDicts chunks);
            EvStore (map (chunk_document chunk_str url) chunks) (repo_namespace url)].
Proof.
  split.
  - intros H. unfold submit_repo in H.
    destruct (clone_repository clone_from url fs) as [[r fs1] cl] eqn:Ec.
    destruct r as [e|path]; [discriminate|].
    destruct (parse_all (os_walk path)) as [m|chunks] eqn:Ep; [discriminate|].
    destruct chunks as [|c cs]; [discriminate|].
    destruct (get_huggingface_embeddings _) as [n| |m] eqn:Eg; [| |discriminate];
    destruct (store_embeddings _ _) eqn:Es; try discriminate;
    inversion H; subst;
    (split; [reflexivity|]);
    exists path, cl, (c :: cs);
    (split; [first [reflexivity|exact Ec]|]); (split; [exact (clone_repository_inr _ _ _ _ _ _ Ec)|]);
    (split; [exact Ep|]); (split; [intros m'; rewrite Eg; discriminate|]);
    (split; [exact Es|]); rewrite <- app_assoc; reflexivity.
  - intros [-> (path & cl & chunks & Hc & _ & Hp & Hg & Hs & ->)].
    unfold submit_repo. rewrite Hc, Hp.
    destruct chunks as [|c cs];
      [exfalso; exact (parse_repo_store_all_inr_cons _ _ _ _ Hp eq_refl)|].
    destruct (get_huggingface_embeddings (ChunkDicts (c :: cs))) as [n| |m] eqn:Eg;
      [| |exfalso; exact (Hg m eq_refl)];
      rewrite Hs, <- app_assoc; reflexivity.
Qed.

End SubmitFacts.

Lemma submit_repo_no_chunks_witness :
  submit_repo (fun _ _ => None) (fun _ => [(os_path_join CLONE_DIR "sample", ["README.md"])])
    sample_content (fun _ _ => None) (fun _ => "") detail (fun _ => EmbOther) (fun _ _ => None)
    sample_url ∅ =
    (inl (err500 "No valid code chunks found in the repository."),
     {[norm_path (os_path_join CLONE_DIR "sample")]} ∪ ensure_clone_dir ∅,
     clone_events [EvClone sample_url (os_path_join CLONE_DIR "sample")]) /\
  submit_repo_backend (fun _ _ => None) (fun _ => [(os_path_join CLONE_DIR "sample", ["README.md"])])
    sample_content (fun _ _ => None) (fun _ => "") (fun _ => EmbOther) (fun _ _ => None)
    sample_url ∅ =
    (inl (err500 UNEXPECTED_ERROR),
     {[norm_path (os_path_join CLONE_DIR "sample")]} ∪ ensure_clone_dir ∅,
     clone_events [EvClone sample_url (os_path_join CLONE_DIR "sample")]).
Proof.
  apply (submit_repo_no_chunks (fun _ _ => None)
           (fun _ => [(os_path_join CLONE_DIR "sample", ["README.md"])])
           sample_content (fun _ _ => None) (fun _ => "") detail (fun _ => EmbOther)
           (fun _ _ => None) sample_url ∅
           ({[norm_path (os_path_join CLONE_DIR "sample")]} ∪ ensure_clone_dir ∅)
           (os_path_join CLONE_DIR "sample")
           [EvClone sample_url (os_path_join CLONE_DIR "sample")]).
  - vm_compute. reflexivity.
  - vm_compute. reflexivity.
Defined.

Lemma submit_repo_backend_success_witness :
  exists path cl chunks n,
    clone_repository (fun _ _ => None) sample_url ∅ =
      (inr path, {[norm_path (os_path_join CLONE_DIR "sample")]} ∪ ensure_clone_dir ∅, cl) /\
    path = os_path_join CLONE_DIR (repo_namespace sample_url) /\
    parse_repo_store_all sample_content (fun _ _ => None) (sample_walk path) = inr chunks /\
    (fun _ => EmbArray 1) (ChunkTexts (map (fun _ => "chunk") chunks)) = EmbArray (S n) /\
    (fun _ _ => None) (map (chunk_document (fun _ => "chunk") sample_url) chunks)
      (repo_namespace sample_url) = @None string /\
    snd (submit_repo_backend (fun _ _ => None) sample_walk sample_content (fun _ _ => None)
           (fun _ => "chunk") (fun _ => EmbArray 1) (fun _ _ => None) sample_url ∅) =
    app (clone_events cl)
      [EvEmbedChunks (ChunkTexts (map (fun _ => "chunk") chunks));
       EvStore (map (chunk_document (fun _ => "chunk") sample_url) chunks)
         (repo_namespace sample_url)].
Proof.
  apply (submit_repo_backend_success (fun _ _ => None) sample_walk sample_content
           (fun _ _ => None) (fun _ => "chunk") (fun _ => EmbArray 1) (fun _ _ => None)
           sample_url ∅ _ SUCCESS_MESSAGE).
  vm_compute. reflexivity.
Defined.

Lemma submit_repo_success_witness :
  let chunks := [file_chunk "x = 1" (os_path_join (os_path_join CLONE_DIR "sample") "main.py")] in
  let tr := app (clone_events [EvClone sample_url (os_path_join CLONE_DIR "sample")])
              [EvEmbedChunks (ChunkDicts chunks);
               EvStore (map (chunk_document (fun _ => "chunk") sample_url) chunks)
                 (repo_namespace sample_url)] in
  let fs' := {[norm_path (os_path_join CLONE_DIR "sample")]} ∪ ensure_clone_dir ∅ in
  submit_repo (fun _ _ => None) sample_walk sample_content (fun _ _ => None)
    (fun _ => "chunk") detail (fun _ => EmbArray 0) (fun _ _ => None) sample_url ∅ =
    (inr SUCCESS_MESSAGE, fs', tr) /\
  submit_repo (fun _ _ => None) sample_walk sample_content (fun _ _ => None)
    (fun _ => "chunk") detail (fun _ => EmbOther) (fun _ _ => None) sample_url ∅ =
    (inr SUCCESS_MESSAGE, fs', tr).
Proof.
  intros chunks tr fs'.
  split;
    [apply (proj2 (submit_repo_success (fun _ _ => None) sample_walk sample_content
              (fun _ _ => None) (fun _ => "chunk") detail (fun _ => EmbArray 0) (fun _ _ => None)
              sample_url ∅ fs' SUCCESS_MESSAGE tr))
    |apply (proj2 (submit_repo_success (fun _ _ => None) sample_walk sample_content
              (fun _ _ => None) (fun _ => "chunk") detail (fun _ => EmbOther) (fun _ _ => None)
              sample_url ∅ fs' SUCCESS_MESSAGE tr))];
    (split; [reflexivity|]);
    exists (os_path_join CLONE_DIR "sample"), [EvClone sample_url (os_path_join CLONE_DIR "sample")],
      chunks;
    (split; [vm_compute; reflexivity|]); (split; [vm_compute; reflexivity|]);
    (split; [vm_compute; reflexivity|]); (split; [intros m; discriminate|]);
    (split; reflexivity).
Defined.

(** ** Properties of the front end *)

Lemma update_namespace_or_clone_history (u : string) (v : option string) (r : api_response)
  (ns : list string) :
  snd (fst (update_namespace_or_clone u v r ns)) = [] /\
  Forall empty_history_call (snd (update_namespace_or_clone u v r ns)).
Proof.
  unfold update_namespace_or_clone.
  destruct (negb (String.eqb u "")).
  - unfold submit_repository. simpl. split; [reflexivity|].
    repeat constructor.
  - destruct v as [n|]; [destruct (truthy (Some n))|]; simpl; split; auto.
Qed.

Lemma ui_step_history (s : ui_state) (e : ui_event) :
  chat_history s = [] -> chat_shape (chatbot s) ->
  chat_history (fst (ui_step s e)) = [] /\ chat_shape (chatbot (fst (ui_step s e))) /\
  Forall empty_history_call (snd (ui_step s e)).
Proof.
  intros Hh Hc. destruct e as [u|m|v|r ns|r]; simpl.
  - auto.
  - auto.
  - destruct (reset_chat_on_namespace_change v) as [h st] eqn:E. simpl.
    split; [|auto].
    unfold reset_chat_on_namespace_change in E.
    destruct v as [n|]; [destruct (truthy (Some n))|]; inversion E; reflexivity.
  - pose proof (update_namespace_or_clone_history (repo_url_input s) (namespace_dropdown s) r ns)
      as [H1 H2].
    destruct (update_namespace_or_clone _ _ _ _) as [[[dd st] h] cs]. simpl in *.
    destruct dd as [[cs' v]|]; simpl; auto.
  - rewrite Hh. unfold handle_query.
    destruct (namespace_dropdown s) as [n|]; simpl.
    + unfold query_with_history. simpl.
      split; [reflexivity|]. split.
      * right; right. eexists _, _. reflexivity.
      * repeat constructor.
    + split; [reflexivity|]. split; [right; left; reflexivity|constructor].
Qed.

Lemma ui_run_history (s : ui_state) (es : list ui_event) :
  chat_history s = [] -> chat_shape (chatbot s) ->
  chat_history (fst (ui_run s es)) = [] /\ chat_shape (chatbot (fst (ui_run s es))) /\
  Forall empty_history_call (snd (ui_run s es)).
Proof.
  revert s. induction es as [|e es IH]; intros s Hh Hc; simpl.
  - auto.
  - destruct (ui_step_history s e Hh Hc) as (H1 & H2 & H3).
    destruct (ui_step s e) as [s1 c1]. simpl in *.
    destruct (IH s1 H1 H2) as (H4 & H5 & H6).
    destruct (ui_run s1 es) as [s2 c2]. simpl in *.
    split; [exact H4|]. split; [exact H5|]. apply Forall_app; split; assumption.
Qed.

(** X17: in any session of the page, whatever the user does and the
    backend answers, the [chat_history] state stays empty: only the
    handlers that reset it write it, since [handle_query] writes the
    chatbot. So every [/query] request carries an empty history, and the
    chatbot shows at most the last exchange. *)
Theorem ui_session_history_empty (namespaces : list string) (es : list ui_event) :
  chat_history (fst (ui_run (ui_init namespaces) es)) = [] /\
  chat_shape (chatbot (fst (ui_run (ui_init namespaces) es))) /\
  Forall empty_history_call (snd (ui_run (ui_init namespaces) es)).
Proof. apply ui_run_history; [reflexivity|left; reflexivity]. Qed.

(** X18: what the front end asks reaches main.py [query_codebase] with an
    empty history, so the text main.py embeds for retrieval is exactly the
    message typed, whatever was said before in the session. *)
Theorem ui_query_embeds_message {vec : Type} (embed_query : string -> vec)
  (index_query : vec -> nat -> string -> list pc_match)
  (llm_complete : list (string * string) -> string)
  (namespaces : list string) (es : list ui_event) (p : query_payload)
  (Hin : In (CallQuery p) (snd (ui_run (ui_init namespaces) es))) :
  exists history rest,
    request_history (payload_history p) = Some history /\
    snd (query_codebase embed_query index_query llm_complete (payload_query p) history
           (payload_namespace p) []) = EvEmbed (payload_query p) :: rest.
Proof.
  destruct (ui_run_history (ui_init namespaces) es eq_refl (or_introl eq_refl))
    as (_ & _ & Hall).
  rewrite List.Forall_forall in Hall. specialize (Hall _ Hin). simpl in Hall.
  exists []. rewrite Hall.
  unfold query_codebase, history_augmented_query, perform_rag, rag_bind,
    call_embed, call_index. simpl.
  destruct (index_query _ _ _); eexists; split; reflexivity.
Qed.

Lemma ui_query_embeds_message_witness :
  exists history rest,
    request_history (payload_history
      {| payload_query := "what does main do?"; payload_history := [];
         payload_namespace := "sample" |}) = Some history /\
    snd (query_codebase (fun s : string => s) (fun _ _ _ => []) (fun _ => "")
           "what does main do?" history "sample" []) =
    EvEmbed "what does main do?" :: rest.
Proof.
  apply (ui_query_embeds_message (fun s : string => s) (fun _ _ _ => []) (fun _ => "") []
           [ChangeNamespace (Some "sample"); TypeMessage "what does main do?";
            ClickSend (RequestFailed "Connection refused")]).
  simpl. left. reflexivity.
Defined.

(** X19: for a history of message dictionaries [{"role": r, "content": c}]
    (the shape [handle_query] builds), [query_with_history] unpacks each
    dictionary into its two keys, so the formatted history alternates
    ["user"] entries with content ["role"] and ["assistant"] entries with
    content ["content"]: the messages' texts are never forwarded. *)
Theorem format_history_message_dicts (i : nat) (msgs : list (string * string)) :
  format_history i (map (fun '(r, c) => chat_message r c) msgs) =
  inr (map (fun j => if Nat.even j then chat_message "user" "role"
                     else chat_message "assistant" "content")
           (seq i (length msgs))).
Proof.
  revert i. induction msgs as [|[r c] msgs IH]; intros i; [reflexivity|].
  simpl. rewrite IH. reflexivity.
Qed.

(** X20: a history entry that is a dictionary without exactly two items
    makes [query_with_history] fail before any request: nothing is sent
    and the text shown is the [ValueError] behind ["Failed to process
    query: "]. *)
Theorem query_with_history_bad_entry (message : string) (history : list chat_dict)
  (namespace : string) (resp : api_response) (d : chat_dict)
  (Hin : In d history) (Hlen : length d <> 2) :
  snd (query_with_history message history namespace resp) = [] /\
  exists msg, fst (query_with_history message history namespace resp) =
              "Failed to process query: " ++ msg.
Proof.
  assert (Hf : forall i, exists msg, format_history i history = inl msg).
  { induction history as [|d' h IH]; intros i; [destruct Hin|].
    simpl. destruct Hin as [->|Hin].
    - assert (E : exists msg, unpack_pair d = inl msg).
      { destruct d as [|[k1 v1] [|[k2 v2] [|kv d]]]; simpl in *; try lia; eexists; reflexivity. }
      destruct E as [msg E]. rewrite E. eauto.
    - destruct (unpack_pair d') as [msg|[human ai]]; [eauto|].
      destruct (IH Hin (S i)) as [msg E]. rewrite E. eauto. }
  destruct (Hf 0) as [msg E]. unfold query_with_history. rewrite E.
  split; [reflexivity|]. eexists. reflexivity.
Qed.

Lemma query_with_history_bad_entry_witness :
  snd (query_with_history "hi" [[("role", "user"); ("content", "hi"); ("name", "x")]] "sample"
         (RequestFailed "")) = [] /\
  exists msg, fst (query_with_history "hi" [[("role", "user"); ("content", "hi"); ("name", "x")]]
                     "sample" (RequestFailed "")) = "Failed to process query: " ++ msg.
Proof.
  apply (query_with_history_bad_entry "hi" _ "sample" (RequestFailed "")
           [("role", "user"); ("content", "hi"); ("name", "x")]).
  - left. reflexivity.
  - simpl. lia.
Defined.

(** X21: submitting a repository resets the namespace dropdown to no
    value (whether or not that update fires its [change] event), so a send
    right after it sends no query: the chatbot shows only the request to
    select a namespace. *)
Theorem ui_clone_then_send (s : ui_state) (submit_resp query_resp : api_response)
  (namespaces : list string) (mid : list ui_event)
  (Hu : repo_url_input s <> "") (Hmid : mid = [] \/ mid = [ChangeNamespace None]) :
  snd (ui_run s (app (ClickClone submit_resp namespaces :: mid) [ClickSend query_resp])) =
    [CallSubmit (repo_url_input s); CallNamespaces] /\
  namespace_dropdown
    (fst (ui_run s (app (ClickClone submit_resp namespaces :: mid) [ClickSend query_resp]))) = None /\
  chatbot (fst (ui_run s (app (ClickClone submit_resp namespaces :: mid) [ClickSend query_resp]))) =
    [chat_message "system" "Please select a namespace first!"].
Proof.
  apply String.eqb_neq in Hu.
  destruct Hmid as [->| ->]; simpl; unfold update_namespace_or_clone; rewrite Hu; simpl;
    auto.
Qed.

Lemma ui_clone_then_send_witness :
  snd (ui_run (ui_init ["sample"])
         (app [TypeRepoUrl sample_url; ClickClone (RequestFailed "") ["sample"]] [ClickSend (RequestFailed "")])) =
    [CallSubmit sample_url; CallNamespaces] /\
  namespace_dropdown
    (fst (ui_run (ui_init ["sample"]) [TypeRepoUrl sample_url; ClickClone (RequestFailed "") ["sample"];
                                        ClickSend (RequestFailed "")])) = None /\
  chatbot (fst (ui_run (ui_init ["sample"]) [TypeRepoUrl sample_url; ClickClone (RequestFailed "") ["sample"];
                                              ClickSend (RequestFailed "")])) =
    [chat_message "system" "Please select a namespace first!"].
Proof.
  pose proof (ui_clone_then_send (fst (ui_step (ui_init ["sample"]) (TypeRepoUrl sample_url)))
                (RequestFailed "") (RequestFailed "") ["sample"] [] ltac:(discriminate)
                (or_introl eq_refl)) as H.
  simpl in H |- *. exact H.
Defined.

(** X22: main.py and backend/main.py [perform_rag] retrieve identically:
    the same embedding request and the same index query ([top_k = 10], the
    given namespace), and the same number of language-model calls; only
    the prompt differs. *)
Theorem perform_rag_versions_same_retrieval {vec : Type} (embed_query : string -> vec)
  (index_query : vec -> nat -> string -> list pc_match)
  (llm_complete : list (string * string) -> string) (query namespace : string) :
  firstn 2 (snd (perform_rag embed_query index_query llm_complete query namespace [])) =
  firstn 2 (snd (perform_rag_backend embed_query index_query llm_complete query namespace [])) /\
  llm_calls (snd (perform_rag embed_query index_query llm_complete query namespace [])) =
  llm_calls (snd (perform_rag_backend embed_query index_query llm_complete query namespace [])).
Proof.
  unfold perform_rag, perform_rag_backend, rag_bind, call_embed, call_index, call_llm, rag_ret.
  simpl. destruct (index_query _ _ _); split; reflexivity.
Qed.
